(** * Note Keeper: authentication and per-owner notes

    A shallow embedding of the backend controllers
    ([controllers/authController.js], [controllers/notesController.js])
    and of the two Mongoose schemas they rest on ([models/User.js],
    [models/Note.js]), with the properties of the authentication and
    ownership flow stated against it.

    The controllers are [async] Express handlers that read a request,
    talk to the document store and to two libraries (bcryptjs and
    jsonwebtoken), and answer through [res.status(..).json(..)].  Here a
    handler is a function from the request and the current [World] to a
    [Response] and the next [World].  Calls that may throw live in a small
    state-and-exception monad [M]; the [try { .. } catch] that wraps every
    handler body is [try_catch].

    A handler is given the fields it destructures from [req.body], each of
    them any JSON value or [undefined]: nothing between the client and the
    handler checks that a username, a password, a title or a content is a
    string. *)

From Stdlib Require Import Ascii String ZArith NArith Lia.
From stdpp Require Import base numbers option list strings gmap fin_maps sorting.

Local Open Scope string_scope.
Local Open Scope Z_scope.

(** ** JavaScript strings

    A string is its sequence of code units.  [String.prototype.trim] is the
    setter that [trim: true] installs on [username]; the white space it
    strips is given here for the code units below 256. *)

Module JsString.

Definition is_white_space (c : ascii) : bool :=
  match c with
  | "009" | "010" | "011" | "012" | "013" | " " | "160" => true
  | _ => false
  end%char.

Fixpoint trimStart (s : string) : string :=
  match s with
  | "" => ""
  | String c s' => if is_white_space c then trimStart s' else s
  end.

Definition trimEnd (s : string) : string :=
  String.rev (trimStart (String.rev s)).

Definition trim (s : string) : string := trimEnd (trimStart s).

(** A string that does not start with white space. *)
Definition no_leading_space (s : string) : Prop :=
  match s with
  | "" => True
  | String c _ => is_white_space c = false
  end.

(** A string whose last character is [c]. *)
Definition ends_in (c : ascii) (s : string) : Prop :=
  ∃ t, s = t +:+ String c "".

End JsString.

(** ** Object identifiers

    A MongoDB [ObjectId] is a 12-byte value, kept as a number below
    [2^96].  On the wire (JSON bodies, URL segments, token payloads) it is
    the 24-digit hexadecimal string [toHexString].  [_id] and [user] are
    [ObjectId] paths, so Mongoose casts a string found there in a filter
    back into an identifier, [castObjectId], and throws a [CastError]
    ("Cast to ObjectId failed") when the string is not 24 hexadecimal
    digits, in either case of the letters. *)

Definition ObjectId := N.

Module Hex.

(** The value of a hexadecimal digit, read off its character code:
    [0-9] are 48..57, [a-f] are 97..102 and [A-F] are 65..70. *)
Definition digit_value (c : ascii) : option N :=
  let n := N_of_ascii c in
  (if (48 <=? n) && (n <=? 57) then Some (n - 48)
   else if (97 <=? n) && (n <=? 102) then Some (n - 87)
   else if (65 <=? n) && (n <=? 70) then Some (n - 55)
   else None)%N.

(** The lower-case digit of a value below 16. *)
Definition digit_char (d : N) : ascii :=
  ascii_of_N (if d <? 10 then 48 + d else 87 + d)%N.

(** Most significant digit first, [acc] holding the digits read so far. *)
Fixpoint parse (acc : N) (s : string) : option N :=
  match s with
  | "" => Some acc
  | String c s' =>
      match digit_value c with
      | Some d => parse (16 * acc + d)%N s'
      | None => None
      end
  end.

(** The [k] low digits of [n], written in front of [acc]. *)
Fixpoint digits (k : nat) (n : N) (acc : string) : string :=
  match k with
  | O => acc
  | S k' => digits k' (n / 16)%N (String (digit_char (n mod 16)%N) acc)
  end.

End Hex.

Definition toHexString (i : ObjectId) : string := Hex.digits 24 i "".

Definition castObjectId (s : string) : option ObjectId :=
  if decide (String.length s = 24%nat) then Hex.parse 0%N s else None.

Definition valid_ObjectId (i : ObjectId) : Prop := (i < 2 ^ 96)%N.

(** ** Values of a JSON request body

    [express.json()] hands a handler whatever JSON the client sent: a field
    of [req.body] is [undefined] ([None]) when the key is missing, and
    otherwise any JSON value, whatever the JSDoc of the handler says.  A
    number is kept as the text that [String(n)] gives it ("123456", "1.5",
    "1e+21"), which is all that is ever asked of a number here besides
    whether it is zero. *)

#[warnings="-register-all"] Inductive json :=
  | JNull
  | JBool (b : bool)
  | JNum (text : string)
  | JStr (s : string)
  | JArr (items : list json)
  | JObj (members : list (string * json)).

(** A string that may be missing: an entry of [process.env], an item of
    [localStorage], the message of a rejection, and the value of a String
    path of a document, where [None] is [null] or [undefined]. *)
Definition field := option string.

(** [!v].  The falsy values are [undefined], [null], [false], the numbers
    [0], [-0] and [NaN] (the text of both zeros is "0"), and the empty
    string; arrays and objects are truthy, the empty ones included. *)
Class JsNot (A : Type) := js_not : A → bool.
Global Hint Mode JsNot ! : typeclass_instances.

Global Instance string_not : JsNot string := λ s, bool_decide (s = "").

Global Instance json_not : JsNot json := λ v,
  match v with
  | JNull => true
  | JBool b => negb b
  | JNum text => bool_decide (text = "0") || bool_decide (text = "NaN")
  | JStr s => js_not s
  | JArr _ | JObj _ => false
  end.

Global Instance option_not `{JsNot A} : JsNot (option A) := λ v,
  match v with
  | None => true
  | Some x => js_not x
  end.

Global Instance field_not : JsNot field := option_not.

(** The string held by a field known to be truthy. *)
Definition js_str (v : field) : string := default "" v.

(** [typeof v === 'string'] *)
Definition js_string (v : option json) : option string :=
  match v with
  | Some (JStr s) => Some s
  | _ => None
  end.

(** [object[key]] on the members of a parsed object: of two members with
    the same key the later one counts. *)
Fixpoint js_member (key : string) (members : list (string * json))
    : option json :=
  match members with
  | [] => None
  | (k, v) :: rest =>
      match js_member key rest with
      | Some v' => Some v'
      | None => if decide (k = key) then Some v else None
      end
  end.

(** [v.toString()] for a string, a number or a boolean. *)
Definition primitive_text (v : json) : option string :=
  match v with
  | JStr s => Some s
  | JNum text => Some text
  | JBool b => Some (if b then "true" else "false")
  | JNull | JArr _ | JObj _ => None
  end.

(** ** Mongoose

    What one key of an update document comes to once it is cast: the key is
    dropped, or the path is set to a string or to [null]. *)
Inductive assignment :=
  | Untouched
  | Assigned (v : field).

Module mongoose.
(** Mongoose and MongoDB are taken as given where a plain object or an array
    stands in the place of a string.  [castString_object] is the cast of a
    plain object to a String path of a document ([None] when no string comes
    of it), [castUpdate_object] the same for a key of an update document
    ([None] when the update is refused), and [findOne_compound path v] is
    [findOne({ path: v })] on a collection for an array or a plain object
    [v], operators such as [{ "$gt": "" }] included: the query is refused
    ([None]), or it finds nothing, or it finds a document. *)
Class impl := {
  castString_object : list (string * json) → option string;
  castUpdate_object : list (string * json) → option assignment;
  findOne_compound {D : Type} :
    (D → string) → json → gmap ObjectId D → option (option (ObjectId * D))
}.

(** A document that a query finds is a document of the collection. *)
Class correct (Q : impl) : Prop := {
  found_is_stored : ∀ D (path : D → string) v (ds : gmap ObjectId D) i d,
    findOne_compound path v ds = Some (Some (i, d)) → ds !! i = Some d
}.
End mongoose.

(** ** Schemas ([models/User.js], [models/Note.js]) *)

Module SchemaString.
(** [castString]: what a value set on a String path is stored as, [None]
    when the cast throws a [CastError].  [null] and [undefined] stay as they
    are, a number and a boolean become their text, an array never casts. *)
Definition cast `{mongoose.impl} (value : option json) : option field :=
  match value with
  | None | Some JNull => Some None
  | Some (JArr _) => None
  | Some (JObj members) => Some <$> mongoose.castString_object members
  | Some v => Some (primitive_text v)
  end.

(** The cast of one key of an update document: a key holding [undefined] is
    dropped, [null] is set as it is. *)
Definition castUpdate `{mongoose.impl} (value : option json)
    : option assignment :=
  match value with
  | None => Some Untouched
  | Some (JObj members) => mongoose.castUpdate_object members
  | Some v => Assigned <$> cast (Some v)
  end.

(** The value of a path after an assignment. *)
Definition assign (a : assignment) (previous : field) : field :=
  match a with
  | Untouched => previous
  | Assigned v => v
  end.

(** [required: true] on a String path: Mongoose's [checkRequired] accepts a
    string only when its length is not zero. *)
Definition required (v : field) : bool := negb (js_not v).

(** [minlength: n] accepts [null]/[undefined] and strings of length at
    least [n]. *)
Definition minlength (n : nat) (v : field) : bool :=
  match v with
  | None => true
  | Some s => bool_decide (n ≤ String.length s)%nat
  end.

(** Setters run when a value is assigned to a path and when a filter on
    that path is cast. *)
Definition applySetters (trim : bool) (s : string) : string :=
  if trim then JsString.trim s else s.
End SchemaString.

Module userSchema.
(** A stored user; [timestamps: true] adds the two dates
    (milliseconds since the epoch). *)
Record doc := mk {
  username : string;
  password : string;
  createdAt : Z;
  updatedAt : Z
}.

(** What a query returns by default: [password] has [select: false]. *)
Record projection := mkProjection {
  p_id : ObjectId;
  p_username : string;
  p_createdAt : Z;
  p_updatedAt : Z
}.

(** A user under construction: [new User({ username, password })] before
    validation.  [d_username] is [None] when the value did not cast. *)
Record draft := mkDraft {
  d_id : ObjectId;
  d_username : option field;
  d_password : string
}.

(** [username: { type: String, required: true, unique: true, trim: true,
    minlength: 3 }] *)
Definition username_setter : string → string := SchemaString.applySetters true.
Definition username_valid (s : string) : bool :=
  SchemaString.required (Some s) && SchemaString.minlength 3 (Some s).

(** The value of [username] after the setter and the cast. *)
Definition username_cast `{mongoose.impl} (value : option json)
    : option field :=
  match SchemaString.cast value with
  | Some v => Some (username_setter <$> v)
  | None => None
  end.

(** [password: { type: String, required: true, minlength: 6,
    select: false }] *)
Definition password_valid (s : string) : bool :=
  SchemaString.required (Some s) && SchemaString.minlength 6 (Some s).

Definition validate (d : doc) : bool :=
  username_valid (username d) && password_valid (password d).

(** The document a draft stands for, when there is one: the cast went
    through and [username] is not [null]. *)
Definition document (now : Z) (n : draft) : option doc :=
  match d_username n with
  | Some (Some name) => Some (mk name (d_password n) now now)
  | _ => None
  end.

Definition project (i : ObjectId) (d : doc) : projection :=
  {| p_id := i; p_username := username d;
     p_createdAt := createdAt d; p_updatedAt := updatedAt d |}.
End userSchema.

Module noteSchema.
(** A stored note.  [title] and [content] are strings on every note that
    [createNote] wrote; an update can set them to [null]. *)
Record doc := mk {
  title : field;
  content : field;
  user : ObjectId;
  createdAt : Z;
  updatedAt : Z
}.

(** A note under construction: [new Note({ title, content, user })]
    before validation.  A path is [None] when its value did not cast. *)
Record draft := mkDraft {
  d_id : ObjectId;
  d_title : option field;
  d_content : option field;
  d_user : ObjectId
}.

(** A String path of a draft passes when the cast went through and
    [required] accepts the value. *)
Definition path_valid (v : option field) : bool :=
  match v with
  | Some s => SchemaString.required s
  | None => false
  end.

(** [title] and [content] are [{ type: String, required: true }]; [user]
    is a required [ObjectId] that the controller always supplies. *)
Definition validate (n : draft) : bool :=
  path_valid (d_title n) && path_valid (d_content n).
End noteSchema.

(** A note as the API returns it ([.lean()], [.toObject()]): the stored
    fields together with [_id].  (Mongoose's version key [__v] is 0 on every
    document these handlers write and is left out.) *)
Definition lean : Type := ObjectId * noteSchema.doc.

(** ** The world a handler runs in *)

(** The awaited calls and log lines of a handler, in the order they happen:
    the work a request costs, as far as the handler decides it. *)
Inductive event :=
  | EvUserFindOne
  | EvUserSave
  | EvGenSalt
  | EvHash
  | EvCompare
  | EvNoteFind
  | EvNoteFindOne
  | EvNoteSave
  | EvNoteFindOneAndUpdate
  | EvNoteFindOneAndDelete
  | EvConsoleError (label : string).

Record World := mkWorld {
  users : gmap ObjectId userSchema.doc;
  notes : gmap ObjectId noteSchema.doc;
  trace : list event
}.

(** What a request draws from its surroundings: the clock, the identifier
    and the salt that the drivers generate, and the process environment. *)
Record Env := mkEnv {
  Date_now : Z;
  new_ObjectId : ObjectId;
  random_salt : string;
  JWT_SECRET : field
}.

Inductive exn :=
  | CastError
  | ValidationError
  | MongoServerError
  | IllegalArguments
  | TypeError.

Definition M (A : Type) : Type := World → (exn + A) * World.

Global Instance M_ret : MRet M := λ A x w, (inr x, w).
Global Instance M_bind : MBind M := λ A B f m w,
  match m w with
  | (inl e, w') => (inl e, w')
  | (inr x, w') => f x w'
  end.

Definition throw {A} (e : exn) : M A := λ w, (inl e, w).
Definition world : M World := λ w, (inr w, w).
(** The world after the events [es]; the collections are as before. *)
Definition log (es : list event) (w : World) : World :=
  mkWorld (users w) (notes w) (trace w ++ es).
Definition call (e : event) : M unit := λ w, (inr (), log [e] w).
Definition set_users (us : gmap ObjectId userSchema.doc) : M unit :=
  λ w, (inr (), mkWorld us (notes w) (trace w)).
Definition set_notes (ns : gmap ObjectId noteSchema.doc) : M unit :=
  λ w, (inr (), mkWorld (users w) ns (trace w)).

(** ** External libraries *)

Module bcrypt.
(** bcryptjs is taken as given on strings: [hash password salt] and
    [compare password hash]. *)
Class impl := {
  hashSync : string → string → string;
  compareSync : string → string → bool
}.

(** What the controllers rely on: a hash verifies against the password it
    was made from, and is a 60-character string. *)
Class correct (B : impl) : Prop := {
  compare_hash : ∀ p s, compareSync p (hashSync p s) = true;
  hash_length : ∀ p s, String.length (hashSync p s) = 60%nat
}.

Definition genSalt (env : Env) (rounds : nat) : M string :=
  call EvGenSalt;; mret (random_salt env).

(** [hash] and [compare] check [typeof s === 'string'] and reject with
    "Illegal arguments" otherwise. *)
Definition hash `{impl} (s : option json) (salt : string) : M string :=
  call EvHash;;
  match js_string s with
  | Some s => mret (hashSync s salt)
  | None => throw IllegalArguments
  end.
Definition compare `{impl} (s : option json) (h : string) : M bool :=
  call EvCompare;;
  match js_string s with
  | Some s => mret (compareSync s h)
  | None => throw IllegalArguments
  end.
End bcrypt.

Module jwt.
(** jsonwebtoken is not modelled down to its encoding: a signed token is
    kept in decoded form, as its claims and the key that signed it. *)
Record payload := mkPayload {
  id : ObjectId;
  username : string;
  iat : Z;
  exp : Z
}.
Record token := mkToken { claims : payload; key : string }.

(** [expiresIn: '1h'], in seconds. *)
Definition expiresIn_1h : Z := 1 * 60 * 60.

(** [jwt.sign({ id, username }, secret, { expiresIn })]: [iat] is the
    clock in whole seconds, [exp] is [iat] plus the span. *)
Definition sign (env : Env) (i : ObjectId) (u : string)
    (secret : string) (expiresIn : Z) : token :=
  let iat := Date_now env `div` 1000 in
  {| claims := {| id := i; username := u; iat := iat; exp := iat + expiresIn |};
     key := secret |}.
End jwt.

(** ** Models *)

Module User.
Definition matches (q : string) (e : ObjectId * userSchema.doc) : bool :=
  bool_decide (userSchema.username e.2 = q).

(** The first stored user whose [username] is [q]. *)
Definition lookup (q : string) (us : gmap ObjectId userSchema.doc)
    : option (ObjectId * userSchema.doc) :=
  List.find (matches q) (map_to_list us).

(** The filter [{ username }], cast and run: [None] when the query is
    refused, otherwise the user it finds, if any.  A string, a number or a
    boolean is cast to its text and passed through the path's setters; the
    query then asks for that very name.  No stored user has a [null]
    name. *)
Definition query `{mongoose.impl} (username : option json)
    (us : gmap ObjectId userSchema.doc)
    : option (option (ObjectId * userSchema.doc)) :=
  match username with
  | None | Some JNull => Some None
  | Some v =>
      match primitive_text v with
      | Some text => Some (lookup (userSchema.username_setter text) us)
      | None => mongoose.findOne_compound userSchema.username v us
      end
  end.

(** [User.findOne({ username }).select('+password')] *)
Definition findOne_select_password `{mongoose.impl} (username : option json)
    : M (option (ObjectId * userSchema.doc)) :=
  w ← world;
  match query username (users w) with
  | Some found => call EvUserFindOne;; mret found
  | None => throw CastError
  end.

(** [User.findOne({ username })] *)
Definition findOne `{mongoose.impl} (username : option json)
    : M (option userSchema.projection) :=
  found ← findOne_select_password username;
  mret (uncurry userSchema.project <$> found).

(** [new User({ username, password })]: the identifier is generated, the
    values are cast and the setters run. *)
Definition new `{mongoose.impl} (env : Env) (username : option json)
    (password : string) : userSchema.draft :=
  {| userSchema.d_id := new_ObjectId env;
     userSchema.d_username := userSchema.username_cast username;
     userSchema.d_password := password |}.

(** [newUser.save()]: validation, the two dates, then an insert that the
    unique indexes on [_id] and [username] may refuse. *)
Definition save (env : Env) (n : userSchema.draft) : M unit :=
  match userSchema.document (Date_now env) n with
  | None => throw ValidationError
  | Some d =>
      if negb (userSchema.validate d) then throw ValidationError
      else
        call EvUserSave;;
        w ← world;
        if decide (is_Some (users w !! userSchema.d_id n))
        then throw MongoServerError
        else if decide (is_Some (lookup (userSchema.username d) (users w)))
        then throw MongoServerError
        else set_users (<[userSchema.d_id n := d]> (users w))
  end.
End User.

Module Note.
(** [sort({ createdAt: -1 })]: [a] may come before [b]. *)
Definition newest_first (a b : lean) : Prop :=
  noteSchema.createdAt b.2 ≤ noteSchema.createdAt a.2.

Global Instance newest_first_dec : RelDecision newest_first.
Proof. intros a b. unfold newest_first. apply _. Defined.

Definition owned_by (uid : ObjectId) (e : lean) : Prop :=
  noteSchema.user e.2 = uid.

Global Instance owned_by_dec uid e : Decision (owned_by uid e).
Proof. unfold owned_by. apply _. Defined.

(** [Note.find({ user }).sort({ createdAt: -1 }).lean()] *)
Definition find_sort_createdAt_desc (uid : ObjectId) : M (list lean) :=
  call EvNoteFind;;
  w ← world;
  mret (merge_sort newest_first
          (map_to_list (filter (owned_by uid) (notes w)))).

(** The document selected by the filter [{ _id: i, user: uid }]. *)
Definition select (i uid : ObjectId) (ns : gmap ObjectId noteSchema.doc)
    : option lean :=
  match ns !! i with
  | Some d => if decide (noteSchema.user d = uid) then Some (i, d) else None
  | None => None
  end.

(** Casting the filter: [_id] arrives as the string of the URL segment. *)
Definition cast_filter (id : string) : M ObjectId :=
  match castObjectId id with
  | Some i => mret i
  | None => throw CastError
  end.

(** [Note.findOne({ _id, user }).lean()] *)
Definition findOne (id : string) (uid : ObjectId) : M (option lean) :=
  i ← cast_filter id;
  call EvNoteFindOne;;
  w ← world;
  mret (select i uid (notes w)).

(** [new Note({ title, content, user })] *)
Definition new `{mongoose.impl} (env : Env) (title content : option json)
    (uid : ObjectId) : noteSchema.draft :=
  {| noteSchema.d_id := new_ObjectId env;
     noteSchema.d_title := SchemaString.cast title;
     noteSchema.d_content := SchemaString.cast content;
     noteSchema.d_user := uid |}.

(** [note.save()] followed by [toObject()]: validation, the two dates,
    then an insert that the unique index on [_id] may refuse. *)
Definition save (env : Env) (n : noteSchema.draft) : M lean :=
  if negb (noteSchema.validate n) then throw ValidationError
  else
    call EvNoteSave;;
    w ← world;
    if decide (is_Some (notes w !! noteSchema.d_id n)) then throw MongoServerError
    else
      let d := {| noteSchema.title := default None (noteSchema.d_title n);
                  noteSchema.content := default None (noteSchema.d_content n);
                  noteSchema.user := noteSchema.d_user n;
                  noteSchema.createdAt := Date_now env;
                  noteSchema.updatedAt := Date_now env |} in
      set_notes (<[noteSchema.d_id n := d]> (notes w));;
      mret (noteSchema.d_id n, d).

(** Casting the update document [{ title, content }]. *)
Definition cast_update `{mongoose.impl} (title content : option json)
    : M (assignment * assignment) :=
  match SchemaString.castUpdate title, SchemaString.castUpdate content with
  | Some t, Some c => mret (t, c)
  | _, _ => throw CastError
  end.

(** The cast update at work on a document: a dropped key leaves its path
    alone, the others are set, and [timestamps] sets [updatedAt].  No
    validator runs on an update. *)
Definition apply_update (env : Env) (title content : assignment)
    (d : noteSchema.doc) : noteSchema.doc :=
  {| noteSchema.title := SchemaString.assign title (noteSchema.title d);
     noteSchema.content := SchemaString.assign content (noteSchema.content d);
     noteSchema.user := noteSchema.user d;
     noteSchema.createdAt := noteSchema.createdAt d;
     noteSchema.updatedAt := Date_now env |}.

(** [Note.findOneAndUpdate({ _id, user }, { title, content },
    { new: true, lean: true })]: the filter and the update are cast before
    the collection is asked. *)
Definition findOneAndUpdate `{mongoose.impl} (env : Env) (id : string)
    (uid : ObjectId) (title content : option json) : M (option lean) :=
  i ← cast_filter id;
  '(t, c) ← cast_update title content;
  call EvNoteFindOneAndUpdate;;
  w ← world;
  match select i uid (notes w) with
  | Some (i, d) =>
      let d' := apply_update env t c d in
      set_notes (<[i := d']> (notes w));;
      mret (Some (i, d'))
  | None => mret None
  end.

(** [Note.findOneAndDelete({ _id, user }).lean()] *)
Definition findOneAndDelete (id : string) (uid : ObjectId) : M (option lean) :=
  i ← cast_filter id;
  call EvNoteFindOneAndDelete;;
  w ← world;
  match select i uid (notes w) with
  | Some (i, d) =>
      set_notes (delete i (notes w));;
      mret (Some (i, d))
  | None => mret None
  end.
End Note.

(** ** Responses *)

(** The [user] object of a login answer. *)
Record SessionUser := mkSessionUser {
  su_id : ObjectId;
  su_username : string
}.

Inductive Body :=
  | Message (message : string)
  | Session (token : jwt.token) (user : SessionUser)
  | NoteBody (note : lean)
  | NotesBody (notes : list lean).

Record Response := mkResponse { status : Z; body : Body }.

(** [res.status(code).json(b)]; [res.json(b)] answers with status 200. *)
Definition res_status_json (code : Z) (b : Body) : M Response :=
  mret {| status := code; body := b |}.
Definition res_json (b : Body) : M Response := res_status_json 200 b.

(** [try { body } catch (error) { console.error(label, error);
    res.status(500).json({ message }) }] *)
Definition try_catch (label message : string) (body : M Response)
    : World → Response * World :=
  λ w,
    match body w with
    | (inr r, w') => (r, w')
    | (inl _, w') =>
        ({| status := 500; body := Message message |},
         log [EvConsoleError label] w')
    end.

(** Every stored username is its own trimmed form: what [register], the only
    writer of users, maintains. *)
Definition usernames_trimmed (w : World) : Prop :=
  ∀ i d, users w !! i = Some d →
    JsString.trim (userSchema.username d) = userSchema.username d.

(** Two worlds hold the same documents. *)
Definition same_db (w w' : World) : Prop :=
  users w' = users w ∧ notes w' = notes w.

Definition not_found (message : string) : Response :=
  {| status := 404; body := Message message |}.
Definition bad_request (message : string) : Response :=
  {| status := 400; body := Message message |}.
Definition server_error (message : string) : Response :=
  {| status := 500; body := Message message |}.

(** ** [controllers/authController.js] *)

Definition default_secret_key : string := "default_secret_key".

(** [process.env.JWT_SECRET || 'default_secret_key'] *)
Definition secret (env : Env) : string :=
  if js_not (JWT_SECRET env) then default_secret_key else js_str (JWT_SECRET env).

(** The [try] block of [register], after the destructuring
    [const { username, password } = req.body]. *)
Definition register_try `{bcrypt.impl} `{mongoose.impl} (env : Env)
    (username password : option json) : M Response :=
  if js_not username || js_not password then
    res_status_json 400 (Message "Username and password are required")
  else
    existingUser ← User.findOne username;
    if existingUser is Some _ then
      res_status_json 400 (Message "Username already exists")
    else
      salt ← bcrypt.genSalt env 10;
      hashedPassword ← bcrypt.hash password salt;
      let newUser := User.new env username hashedPassword in
      User.save env newUser;;
      res_status_json 201 (Message "User registered successfully").

(** [register] on the two fields of the body. *)
Definition register `{bcrypt.impl} `{mongoose.impl} (env : Env)
    (username password : option json) : World → Response * World :=
  try_catch "Registration error:" "Server error"
    (register_try env username password).

(** The [try] block of [login], after the destructuring. *)
Definition login_try `{bcrypt.impl} `{mongoose.impl} (env : Env)
    (username password : option json) : M Response :=
  if js_not username || js_not password then
    res_status_json 400 (Message "Username and password are required")
  else
    user ← User.findOne_select_password username;
    match user with
    | None => res_status_json 400 (Message "Invalid credentials")
    | Some (_id, user) =>
        isMatch ← bcrypt.compare password (userSchema.password user);
        if negb isMatch then
          res_status_json 400 (Message "Invalid credentials")
        else
          let token :=
            jwt.sign env _id (userSchema.username user) (secret env)
              jwt.expiresIn_1h in
          res_json (Session token
                      {| su_id := _id; su_username := userSchema.username user |})
    end.

(** [login] on the two fields of the body. *)
Definition login `{bcrypt.impl} `{mongoose.impl} (env : Env)
    (username password : option json) : World → Response * World :=
  try_catch "Login error:" "Server error" (login_try env username password).

(** ** [controllers/notesController.js]

    [user_id] is [req.user.id], the identity that [authMiddleware] attached;
    [params_id] is [req.params.id]; [title] and [content] are the fields of
    [req.body]. *)

Definition getAllNotes (user_id : ObjectId) : World → Response * World :=
  try_catch "Error in getAllNotes controller:" "Internal server error" (
    notes ← Note.find_sort_createdAt_desc user_id;
    res_status_json 200 (NotesBody notes)).

Definition getNoteById (user_id : ObjectId) (params_id : string)
    : World → Response * World :=
  try_catch "Error in getNoteById controller:" "Internal server error" (
    note ← Note.findOne params_id user_id;
    match note with
    | None => res_status_json 404 (Message "Note not found!")
    | Some note => res_json (NoteBody note)
    end).

(** The [try] block of [createNote], after the destructuring
    [const { title, content } = req.body]. *)
Definition createNote_try `{mongoose.impl} (env : Env) (user_id : ObjectId)
    (title content : option json) : M Response :=
  let note := Note.new env title content user_id in
  savedNote ← Note.save env note;
  res_status_json 201 (NoteBody savedNote).

Definition createNote `{mongoose.impl} (env : Env) (user_id : ObjectId)
    (title content : option json) : World → Response * World :=
  try_catch "Error in createNote controller:" "Internal server error"
    (createNote_try env user_id title content).

(** The [try] block of [updateNote], after the destructuring. *)
Definition updateNote_try `{mongoose.impl} (env : Env) (user_id : ObjectId)
    (params_id : string) (title content : option json) : M Response :=
  updatedNote ← Note.findOneAndUpdate env params_id user_id title content;
  match updatedNote with
  | None => res_status_json 404 (Message "Note not found")
  | Some updatedNote => res_status_json 200 (NoteBody updatedNote)
  end.

Definition updateNote `{mongoose.impl} (env : Env) (user_id : ObjectId)
    (params_id : string) (title content : option json)
    : World → Response * World :=
  try_catch "Error in updateNote controller:" "Internal server error"
    (updateNote_try env user_id params_id title content).

Definition deleteNote (user_id : ObjectId) (params_id : string)
    : World → Response * World :=
  try_catch "Error in deleteNote controller:" "Internal server error" (
    deletedNote ← Note.findOneAndDelete params_id user_id;
    match deletedNote with
    | None => res_status_json 404 (Message "Note not found")
    | Some _ => res_status_json 200 (Message "Note deleted successfully!")
    end).

(** ** The handlers from [req.body]

    [req.body] is what [express.json()] left there: the parsed JSON object
    or array, or [undefined] when the request carried no JSON body and the
    Express at hand puts no empty object in its place.  The destructuring
    is the first statement of the [try] block of each of the four handlers
    that read a body: it throws a [TypeError] on [undefined] and on [null],
    and reads [undefined] for a key that the value does not have. *)

Definition destructure (a b : string) (req_body : option json)
    : M (option json * option json) :=
  match req_body with
  | None | Some JNull => throw TypeError
  | Some (JObj members) => mret (js_member a members, js_member b members)
  | Some _ => mret (None, None)
  end.

Definition register_req `{bcrypt.impl} `{mongoose.impl} (env : Env)
    (req_body : option json) : World → Response * World :=
  try_catch "Registration error:" "Server error" (
    '(username, password) ← destructure "username" "password" req_body;
    register_try env username password).

Definition login_req `{bcrypt.impl} `{mongoose.impl} (env : Env)
    (req_body : option json) : World → Response * World :=
  try_catch "Login error:" "Server error" (
    '(username, password) ← destructure "username" "password" req_body;
    login_try env username password).

Definition createNote_req `{mongoose.impl} (env : Env) (user_id : ObjectId)
    (req_body : option json) : World → Response * World :=
  try_catch "Error in createNote controller:" "Internal server error" (
    '(title, content) ← destructure "title" "content" req_body;
    createNote_try env user_id title content).

Definition updateNote_req `{mongoose.impl} (env : Env) (user_id : ObjectId)
    (params_id : string) (req_body : option json)
    : World → Response * World :=
  try_catch "Error in updateNote controller:" "Internal server error" (
    '(title, content) ← destructure "title" "content" req_body;
    updateNote_try env user_id params_id title content).

(** ** A reference bcrypt

    A stand-in with the shape of bcrypt's output (a 29-character salt part
    followed by a 31-character digest part), used to run the handlers on
    concrete requests. *)

Module bcrypt_reference.
(** The first [n] characters of [s], filled up with dots. *)
Fixpoint pad (n : nat) (s : string) : string :=
  match n with
  | O => ""
  | S n' =>
      match s with
      | "" => String "." (pad n' "")
      | String c s' => String c (pad n' s')
      end
  end.

Definition hashSync (p salt : string) : string := pad 29 salt +:+ pad 31 p.

Definition compareSync (p h : string) : bool :=
  bool_decide (h = hashSync p (pad 29 h)).

Global Instance impl : bcrypt.impl :=
  {| bcrypt.hashSync := hashSync; bcrypt.compareSync := compareSync |}.
End bcrypt_reference.


(** ** A reference Mongoose

    A stand-in for the casts and queries that [mongoose.impl] leaves open,
    used to run the handlers on concrete requests.  It casts a plain object
    to the string under its [_id] key when there is one, and understands
    three compound filters: an array (any of its elements), [{ "$gt": x }]
    and [{ "$ne": x }]; it refuses every other. *)

Module mongoose_reference.
Definition castString_object (members : list (string * json))
    : option string :=
  match js_member "_id" members with
  | Some (JStr s) => if decide (s = "") then None else Some s
  | _ => None
  end.

Definition castUpdate_object (members : list (string * json))
    : option assignment :=
  (λ s, Assigned (Some s)) <$> castString_object members.

(** The operand of a condition, cast and trimmed. *)
Definition operand (v : json) : option string :=
  JsString.trim <$> primitive_text v.

(** What a compound filter asks of the string at its path. *)
Definition condition (v : json) : option (string → bool) :=
  match v with
  | JArr items =>
      (λ names name, bool_decide (name ∈ names)) <$> mapM operand items
  | JObj [(k, x)] =>
      if decide (k = "$gt") then (λ t name, String.ltb t name) <$> operand x
      else if decide (k = "$ne")
      then (λ t name, negb (bool_decide (name = t))) <$> operand x
      else None
  | _ => None
  end.

Definition findOne_compound {D : Type} (path : D → string) (v : json)
    (ds : gmap ObjectId D) : option (option (ObjectId * D)) :=
  (λ holds, List.find (λ e, holds (path e.2)) (map_to_list ds))
  <$> condition v.

Global Instance impl : mongoose.impl :=
  {| mongoose.castString_object := castString_object;
     mongoose.castUpdate_object := castUpdate_object;
     mongoose.findOne_compound := @findOne_compound |}.
End mongoose_reference.

(** ** Sample data *)

Module sample.
Definition salt : string := "$2b$10$abcdefghijklmnopqrstuv".

Definition env (now : Z) (oid : ObjectId) : Env :=
  {| Date_now := now; new_ObjectId := oid;
     random_salt := salt; JWT_SECRET := None |}.

(** A body field holding a string. *)
Definition str (s : string) : option json := Some (JStr s).

Definition empty : World := mkWorld ∅ ∅ [].

Definition alice : ObjectId := 1%N.
Definition bob : ObjectId := 2%N.

Definition first_id : ObjectId := 16%N.
Definition second_id : ObjectId := 17%N.

Definition alice_doc : userSchema.doc :=
  userSchema.mk "alice" (bcrypt_reference.hashSync "wonderland" salt)
    1000 1000.
Definition first : noteSchema.doc :=
  noteSchema.mk (Some "first") (Some "one") alice 2000 2000.
Definition second : noteSchema.doc :=
  noteSchema.mk (Some "second") (Some "two") alice 3000 3000.

(** Alice is registered and owns two notes; Bob is not registered. *)
Definition db : World :=
  mkWorld {[ alice := alice_doc ]}
          (<[second_id := second]> {[ first_id := first ]}) [].

(** The requests that lead from the empty store to [db]. *)
Definition history : World :=
  let w1 := (register (env 1000 alice) (str "alice") (str "wonderland")
               empty).2 in
  let w2 := (createNote (env 2000 first_id) alice (str "first") (str "one")
               w1).2 in
  (createNote (env 3000 second_id) alice (str "second") (str "two") w2).2.

(** A store that holds what [db] holds and more: Bob is registered and owns
    a note of his own. *)
Definition bob_doc : userSchema.doc :=
  userSchema.mk "bob" (bcrypt_reference.hashSync "builder1" salt) 1500 1500.
Definition third_id : ObjectId := 18%N.
Definition third : noteSchema.doc :=
  noteSchema.mk (Some "third") (Some "three") bob 3500 3500.
Definition db_with_bob : World :=
  mkWorld (<[bob := bob_doc]> (users db)) (<[third_id := third]> (notes db))
    [EvUserFindOne].
End sample.


(** * The browser side

    The React components keep their state in hooks and in [localStorage],
    and talk to the API through an axios instance.  A component function
    is embedded as a function on its state; what awaiting an axios call
    comes to is an argument. *)

(** An awaited axios call: the response data of a 2xx answer, or a rejection
    with [error.response?.status] and [error.response?.data?.message]. *)
Inductive axios (A : Type) :=
  | Resolved (data : A)
  | Rejected (status : option Z) (message : field).
Arguments Resolved {A} data.
Arguments Rejected {A} status message.

(** axios resolves on a status from 200 to 299 and rejects on any other;
    the message of a rejection is the [message] field of the JSON body. *)
Definition deliver (r : Response) : axios Body :=
  if bool_decide (200 ≤ status r < 300) then Resolved (body r)
  else Rejected (Some (status r))
         (match body r with Message m => Some m | _ => None end).

Inductive toast :=
  | ToastSuccess (text : field)
  | ToastError (text : field).

Module JSON.
(** [JSON.parse] ([None] when it throws), [JSON.stringify], and the
    truthiness of a parsed value. *)
Class impl (V : Type) := {
  parse : string → option V;
  stringify : V → string;
  truthy : V → bool
}.

(** A value read back from its own text is the same value, and that text is
    never empty. *)
Class correct `(J : impl V) : Prop := {
  parse_stringify : ∀ v, parse (stringify v) = Some v;
  stringify_nonempty : ∀ v, stringify v ≠ ""
}.
End JSON.

(** ** [context/AuthContext.jsx] *)

Module AuthContext.
Section provider.
Context {V : Type} `{J : JSON.impl V}.

(** [user] is [null] ([None]) or a parsed value; [localStorage] belongs to
    the browser and outlives the component. *)
Record state := mkState {
  localStorage : gmap string string;
  user : option V;
  loading : bool
}.

(** [useState(null)], [useState(true)] over the storage found at load. *)
Definition initial (storage : gmap string string) : state :=
  {| localStorage := storage; user := None; loading := true |}.

(** The effect run once on mount. *)
Definition mount (st : state) : state :=
  let token := localStorage st !! "token" in
  let storedUser := localStorage st !! "user" in
  let st' :=
    if negb (js_not token) && negb (js_not storedUser) then
      match JSON.parse (js_str storedUser) with
      | Some u => mkState (localStorage st) (Some u) (loading st)
      | None =>
          mkState (delete "user" (delete "token" (localStorage st)))
            (user st) (loading st)
      end
    else st in
  mkState (localStorage st') (user st') false.

(** [{ token, user }], the data of a login answer. *)
Record session := mkSession { token : string; session_user : V }.

(** [{ success, message }] *)
Record result := mkResult { success : bool; message : field }.

(** [error.response?.data?.message || fallback] *)
Definition message_or (fallback : string) (m : field) : field :=
  Some (if js_not m then fallback else js_str m).

(** [login]: [post] is [axiosInstance.post('/auth/login', ..)] awaited. *)
Definition login (post : string → string * string → axios session)
    (username password : string) (st : state) : result * state :=
  match post "/auth/login" (username, password) with
  | Resolved data =>
      ({| success := true; message := None |},
       mkState
         (<["user" := JSON.stringify (session_user data)]>
            (<["token" := token data]> (localStorage st)))
         (Some (session_user data)) (loading st))
  | Rejected _ m =>
      ({| success := false; message := message_or "Login failed" m |}, st)
  end.

(** [register] keeps nothing of the answer. *)
Definition register {A} (post : string → string * string → axios A)
    (username password : string) (st : state) : result * state :=
  match post "/auth/register" (username, password) with
  | Resolved _ => ({| success := true; message := None |}, st)
  | Rejected _ m =>
      ({| success := false; message := message_or "Registration failed" m |},
       st)
  end.

Definition logout (st : state) : state :=
  mkState (delete "user" (delete "token" (localStorage st))) None (loading st).

(** [!user] *)
Definition no_user (st : state) : bool :=
  match user st with
  | None => true
  | Some v => negb (JSON.truthy v)
  end.
End provider.
End AuthContext.

(** ** [App.jsx] *)

Inductive view :=
  | LoadingText
  | NavigateTo (path : string)
  | Children.

Definition ProtectedRoute {V} `{J : JSON.impl V} (st : @AuthContext.state V)
    : view :=
  if AuthContext.loading st then LoadingText
  else if AuthContext.no_user st then NavigateTo "/login"
  else Children.

(** A page load: the provider starts over the storage it finds and runs its
    mount effect. *)
Definition load_page {V} `{J : JSON.impl V} (storage : gmap string string)
    : @AuthContext.state V :=
  AuthContext.mount (AuthContext.initial storage).

(** ** [pages/Register.jsx], [pages/Login.jsx] *)

(** What a submit handler does with the result: the toast it shows and the
    path it navigates to, if any. *)
Record submitted := mkSubmitted { shown : toast; went_to : option string }.

Definition Register_handleSubmit (result : AuthContext.result) : submitted :=
  if AuthContext.success result then
    {| shown := ToastSuccess (Some "Registered successfully. Please login.");
       went_to := Some "/login" |}
  else
    {| shown := ToastError (AuthContext.message result); went_to := None |}.

Definition Login_handleSubmit (result : AuthContext.result) : submitted :=
  if AuthContext.success result then
    {| shown := ToastSuccess (Some "Logged in successfully");
       went_to := Some "/" |}
  else
    {| shown := ToastError (AuthContext.message result); went_to := None |}.

(** ** [components/NoteCard.jsx] *)

(** [handleDelete] over the list held by [setNotes]: [confirmed] is what
    [window.confirm] returned, [api_delete] is [api.delete(url)] awaited, as
    a step of the server [S]; [_id] reads a note's identifier. *)
Definition handleDelete {N S A} (_id : N → string) (confirmed : bool)
    (api_delete : string → S → axios A * S) (id : string)
    (prevNotes : list N) (server : S) : list N * option toast * S :=
  if negb confirmed then (prevNotes, None, server)
  else
    match api_delete ("/notes/" +:+ id) server with
    | (Resolved _, server') =>
        (filter (λ note, _id note ≠ id) prevNotes,
         Some (ToastSuccess (Some "Note deleted successfully")), server')
    | (Rejected _ _, server') =>
        (prevNotes, Some (ToastError (Some "Failed to delete note")), server')
    end.

(** ** [pages/HomePage.jsx] *)

Module HomePage.
Section page.
Context {N : Type}.

Record state := mkState {
  isRateLimited : bool;
  notes : list N;
  loading : bool
}.

Definition initial : state :=
  {| isRateLimited := false; notes := []; loading := true |}.

(** [fetchNotes]: [get] is [api.get("/notes")] awaited; the toast is the
    one of the [catch] branch. *)
Definition fetchNotes (get : axios (list N)) (st : state)
    : state * option toast :=
  match get with
  | Resolved data => (mkState false data false, None)
  | Rejected status _ =>
      if bool_decide (status = Some 429)
      then (mkState true (notes st) false, None)
      else (mkState (isRateLimited st) (notes st) false,
            Some (ToastError (Some "Failed to load notes")))
  end.

(** The parts of the page below the navigation bar. *)
Inductive panel :=
  | RateLimitedUI
  | LoadingNotes
  | NotesNotFound
  | NotesGrid (cards : list N).

Definition render (st : state) : list panel :=
  (if isRateLimited st then [RateLimitedUI] else [])
  ++ (if loading st then [LoadingNotes] else [])
  ++ (if bool_decide (length (notes st) = 0%nat) && negb (isRateLimited st)
      then [NotesNotFound] else [])
  ++ (if bool_decide (0 < length (notes st))%nat && negb (isRateLimited st)
      then [NotesGrid (notes st)] else []).
End page.
End HomePage.

(** ** A reference JSON

    A stand-in that writes a string value as a quote mark followed by its
    characters, used to run the browser side on concrete data. *)

Module JSON_reference.
Definition quote : ascii := "'".

Definition stringify (v : string) : string := String quote v.

Definition parse (s : string) : option string :=
  match s with
  | String c v => if decide (c = quote) then Some v else None
  | "" => None
  end.

Global Instance impl : JSON.impl string :=
  {| JSON.parse := parse; JSON.stringify := stringify;
     JSON.truthy := λ v, negb (bool_decide (v = "")) |}.
End JSON_reference.

(** A browser in which Alice is logged in, and two servers: one that rejects
    every login with a 400 carrying no message, one that accepts. *)
Definition alice_browser : @AuthContext.state string :=
  AuthContext.mkState
    (<["theme" := "forest"]> (<["user" := "'alice"]> {["token" := "abc"]}))
    (Some "alice") false.

Definition rejecting (_ : string) (_ : string * string)
    : axios (@AuthContext.session string) :=
  Rejected (Some 400) None.

Definition accepting (_ : string) (_ : string * string)
    : axios (@AuthContext.session string) :=
  Resolved (AuthContext.mkSession "xyz" "bob").

(** ** Stores and histories *)

(** The notes of one user. *)
Definition own_notes (uid : ObjectId) (w : World)
    : gmap ObjectId noteSchema.doc :=
  filter (Note.owned_by uid) (notes w).

(** What [register] keeps true of every stored user: the username is
    trimmed, has at least 3 characters and is no other user's; the password
    field has the length of a bcrypt hash. *)
Definition users_wf (w : World) : Prop :=
  ∀ i d, users w !! i = Some d →
    JsString.trim (userSchema.username d) = userSchema.username d
    ∧ (3 ≤ String.length (userSchema.username d))%nat
    ∧ String.length (userSchema.password d) = 60%nat
    ∧ (∀ j e, users w !! j = Some e →
         userSchema.username e = userSchema.username d → j = i).

(** One call of a handler, with what the request carries. *)
(** One call of a handler, with what the request carries. *)
Inductive request :=
  | Register (env : Env) (username password : option json)
  | Login (env : Env) (username password : option json)
  | GetAllNotes (user_id : ObjectId)
  | GetNoteById (user_id : ObjectId) (params_id : string)
  | CreateNote (env : Env) (user_id : ObjectId) (title content : option json)
  | UpdateNote (env : Env) (user_id : ObjectId) (params_id : string)
      (title content : option json)
  | DeleteNote (user_id : ObjectId) (params_id : string).

Definition handle `{bcrypt.impl} `{mongoose.impl} (r : request)
    : World → Response * World :=
  match r with
  | Register env u p => register env u p
  | Login env u p => login env u p
  | GetAllNotes uid => getAllNotes uid
  | GetNoteById uid id => getNoteById uid id
  | CreateNote env uid t c => createNote env uid t c
  | UpdateNote env uid id t c => updateNote env uid id t c
  | DeleteNote uid id => deleteNote uid id
  end.

(** The world after a sequence of requests, served one after the other. *)
Definition serve `{bcrypt.impl} `{mongoose.impl} (rs : list request)
    (w : World) : World :=
  foldl (λ w r, (handle r w).2) w rs.

(** The identity a request is made under: [req.user.id] for the notes
    routes, none for the public authentication routes. *)
Definition actor (r : request) : option ObjectId :=
  match r with
  | Register _ _ _ | Login _ _ _ => None
  | GetAllNotes uid | GetNoteById uid _ | CreateNote _ uid _ _
  | UpdateNote _ uid _ _ _ | DeleteNote uid _ => Some uid
  end.

(** * Properties *)

(** ** Trimming *)

Section trim.
Import JsString.

Lemma app_cons a (s t : string) : String a s +:+ t = String a (s +:+ t).
Proof. reflexivity. Qed.

Lemma app_empty_r (s : string) : s +:+ "" = s.
Proof. induction s as [|a s IH]; [done|]. by rewrite app_cons, IH. Qed.

Lemma rev_app_rev_app s1 s2 s3 :
  String.rev_app (String.rev_app s1 s2) s3 = String.rev_app s2 (s1 +:+ s3).
Proof.
  revert s2 s3. induction s1 as [|a s1 IH]; intros s2 s3; [done|].
  cbn [String.rev_app]. by rewrite IH.
Qed.

Lemma rev_app_app s1 s2 t :
  String.rev_app (s1 +:+ s2) t = String.rev_app s2 (String.rev_app s1 t).
Proof.
  revert t. induction s1 as [|a s1 IH]; intros t; [done|].
  rewrite app_cons. cbn [String.rev_app]. apply IH.
Qed.

Lemma rev_involutive s : String.rev (String.rev s) = s.
Proof. unfold String.rev. by rewrite rev_app_rev_app, app_empty_r. Qed.

Lemma trimStart_no_leading_space s : no_leading_space (trimStart s).
Proof.
  induction s as [|c s IH]; [done|]. cbn.
  by destruct (is_white_space c) eqn:Hc.
Qed.

Lemma trimStart_id s : no_leading_space s → trimStart s = s.
Proof. destruct s as [|c s]; [done|]. cbn. by intros ->. Qed.

Lemma trimStart_ends_in c s :
  is_white_space c = false → ends_in c s → ends_in c (trimStart s).
Proof.
  intros Hc [t ->]. induction t as [|a t IH].
  - change ("" +:+ String c "") with (String c "").
    cbn [trimStart]. rewrite Hc. by exists "".
  - rewrite app_cons. cbn [trimStart].
    destruct (is_white_space a); [done|]. by exists (String a t).
Qed.

Lemma rev_app_ends_in c s t : ends_in c t → ends_in c (String.rev_app s t).
Proof.
  revert t. induction s as [|a s IH]; intros t Ht; [done|].
  cbn [String.rev_app]. apply IH. destruct Ht as [u ->]. by exists (String a u).
Qed.

Lemma rev_ends_in c s : ends_in c (String.rev (String c s)).
Proof.
  unfold String.rev. cbn [String.rev_app]. apply rev_app_ends_in. by exists "".
Qed.

(** Stripping the end leaves the start as it is. *)
Lemma trimEnd_no_leading_space s :
  no_leading_space s → no_leading_space (trimEnd s).
Proof.
  destruct s as [|c s]; [done|]. cbn [no_leading_space]. intros Hc.
  unfold trimEnd.
  destruct (trimStart_ends_in c (String.rev (String c s)) Hc (rev_ends_in c s))
    as [t ->].
  unfold String.rev. by rewrite rev_app_app.
Qed.

Lemma trimEnd_id s : no_leading_space (String.rev s) → trimEnd s = s.
Proof. intros Hs. unfold trimEnd. by rewrite trimStart_id, rev_involutive. Qed.

(** Trimming a trimmed string changes nothing. *)
Lemma trim_idemp s : trim (trim s) = trim s.
Proof.
  assert (no_leading_space (trim s)) as Hlead.
  { apply trimEnd_no_leading_space, trimStart_no_leading_space. }
  unfold trim at 1. rewrite trimStart_id by done.
  apply trimEnd_id. unfold trim, trimEnd. rewrite rev_involutive.
  apply trimStart_no_leading_space.
Qed.

Lemma trim_empty : trim "" = "".
Proof. reflexivity. Qed.
End trim.

(** ** Identifiers on the wire *)

Section hex.
Local Open Scope N_scope.

Lemma digit_value_char d : d < 16 → Hex.digit_value (Hex.digit_char d) = Some d.
Proof.
  intros Hd. destruct d as [|p]; [reflexivity|].
  do 4 (try destruct p as [p|p|]); try reflexivity; lia.
Qed.

Lemma length_digits k n acc :
  String.length (Hex.digits k n acc) = (k + String.length acc)%nat.
Proof.
  revert n acc. induction k as [|k IH]; intros n acc; simpl; [done|].
  rewrite IH. simpl. lia.
Qed.

Lemma parse_digits k n acc a :
  Hex.parse a (Hex.digits k n acc)
  = Hex.parse (a * 16 ^ N.of_nat k + n mod 16 ^ N.of_nat k) acc.
Proof.
  revert n acc a. induction k as [|k IH]; intros n acc a.
  - cbn [Hex.digits]. change (N.of_nat 0) with 0.
    rewrite N.pow_0_r, N.mod_1_r. f_equal. lia.
  - cbn [Hex.digits]. rewrite IH. cbn [Hex.parse].
    rewrite digit_value_char by (apply N.mod_lt; lia).
    f_equal. rewrite Nat2N.inj_succ, N.pow_succ_r'.
    rewrite (N.Div0.mod_mul_r n 16 (16 ^ N.of_nat k)).
    generalize (16 ^ N.of_nat k). intros. lia.
Qed.

(** The hexadecimal form of a 12-byte identifier casts back to it. *)
Lemma castObjectId_toHexString i :
  valid_ObjectId i → castObjectId (toHexString i) = Some i.
Proof.
  unfold valid_ObjectId, castObjectId, toHexString. intros Hi.
  rewrite decide_True by (rewrite length_digits; reflexivity).
  rewrite parse_digits. cbn [Hex.parse]. f_equal.
  rewrite N.mul_0_l, N.add_0_l. apply N.mod_small.
  replace (16 ^ N.of_nat 24) with (2 ^ 96) by (vm_compute; reflexivity).
  exact Hi.
Qed.
End hex.

(** ** The user collection *)

Section user_lookup.
Implicit Types (us : gmap ObjectId userSchema.doc) (d : userSchema.doc).

Lemma lookup_user_Some q us i d :
  User.lookup q us = Some (i, d) → us !! i = Some d ∧ userSchema.username d = q.
Proof.
  unfold User.lookup. intros [Hin Hm]%find_some. split.
  - by apply elem_of_map_to_list, list_elem_of_In.
  - unfold User.matches in Hm. by apply bool_decide_eq_true in Hm.
Qed.

Lemma lookup_user_None q us i d :
  User.lookup q us = None → us !! i = Some d → userSchema.username d ≠ q.
Proof.
  unfold User.lookup. intros Hnone Hd Hq.
  pose proof (find_none _ _ Hnone (i, d)) as Hm.
  unfold User.matches in Hm. simpl in Hm.
  rewrite bool_decide_eq_false in Hm. apply Hm; [|done].
  by apply list_elem_of_In, elem_of_map_to_list.
Qed.

Lemma lookup_user_is_Some q us i d :
  us !! i = Some d → userSchema.username d = q → is_Some (User.lookup q us).
Proof.
  intros Hd Hq. destruct (User.lookup q us) eqn:E; [by eexists|].
  by destruct (lookup_user_None _ _ _ _ E Hd).
Qed.

(** A user inserted under a free identifier and an unused name is the one
    a later lookup of that name finds. *)
Lemma lookup_user_insert q us i d :
  User.lookup q us = None → userSchema.username d = q →
  User.lookup q (<[i := d]> us) = Some (i, d).
Proof.
  intros Hnone Hq.
  destruct (lookup_user_is_Some q (<[i := d]> us) i d) as [[j e] Hje];
    [apply lookup_insert_eq | done |].
  rewrite Hje. apply lookup_user_Some in Hje as [Hj He].
  destruct (decide (i = j)) as [->|Hne].
  - rewrite lookup_insert_eq in Hj. congruence.
  - rewrite lookup_insert_ne in Hj by done.
    by destruct (lookup_user_None _ _ _ _ Hnone Hj).
Qed.
End user_lookup.

(** ** The reference bcrypt meets the interface *)

Section bcrypt_reference_correct.
Import bcrypt_reference.

Lemma length_pad n s : String.length (pad n s) = n.
Proof.
  revert s. induction n as [|n IH]; intros s; [done|].
  destruct s; simpl; by rewrite IH.
Qed.

Lemma pad_app n s t : pad n (pad n s +:+ t) = pad n s.
Proof.
  revert s. induction n as [|n IH]; intros s; [done|].
  destruct s as [|c s]; simpl.
  - f_equal. apply (IH "").
  - f_equal. apply IH.
Qed.

Lemma length_app (s t : string) :
  String.length (s +:+ t) = (String.length s + String.length t)%nat.
Proof. induction s as [|c s IH]; simpl; [done|]. by rewrite IH. Qed.

Lemma pad_idemp n s : pad n (pad n s) = pad n s.
Proof.
  revert s. induction n as [|n IH]; intros s; [done|].
  destruct s; simpl; by rewrite IH.
Qed.

Global Instance bcrypt_reference_correct : bcrypt.correct bcrypt_reference.impl.
Proof.
  split; intros p s; cbn [bcrypt.compareSync bcrypt.hashSync impl].
  - unfold compareSync, hashSync. apply bool_decide_eq_true.
    by rewrite pad_app, pad_idemp.
  - unfold hashSync. by rewrite length_app, !length_pad.
Qed.
End bcrypt_reference_correct.

(** ** The reference Mongoose meets the interface *)

Global Instance mongoose_reference_correct :
  mongoose.correct mongoose_reference.impl.
Proof.
  split. intros D path v ds i d. cbn.
  unfold mongoose_reference.findOne_compound.
  destruct (mongoose_reference.condition v) as [holds|]; [|done]. cbn.
  intros [= [Hin _]%find_some].
  by apply elem_of_map_to_list, list_elem_of_In.
Qed.

(** ** Running the handlers

    Each handler is unfolded once into the outcome of every path through
    it; the properties below are read off these equations. *)

Ltac unfold_M :=
  unfold register_try, login_try, createNote_try, updateNote_try,
    try_catch, res_json, res_status_json,
    Note.findOne, Note.findOneAndUpdate, Note.findOneAndDelete,
    Note.find_sort_createdAt_desc, Note.save, Note.cast_filter,
    Note.cast_update, User.findOne, User.findOne_select_password, User.save,
    bcrypt.genSalt, bcrypt.hash, bcrypt.compare,
    call, world, throw, set_users, set_notes,
    mbind, mret, M_bind, M_ret.

(** Closes an equation between two outcomes that differ in how the trace
    is bracketed. *)
Ltac same_trace :=
  unfold log; cbn; repeat rewrite <- app_assoc; reflexivity.

Lemma same_db_refl w : same_db w w.
Proof. done. Qed.

Lemma same_db_log es w : same_db w (log es w).
Proof. done. Qed.

Create HintDb notes.
#[export] Hint Resolve same_db_refl same_db_log : notes.

Section select.
Implicit Types (ns : gmap ObjectId noteSchema.doc) (d : noteSchema.doc).

Lemma select_Some i uid ns d :
  ns !! i = Some d → noteSchema.user d = uid →
  Note.select i uid ns = Some (i, d).
Proof. intros Hd Hu. unfold Note.select. by rewrite Hd, decide_True. Qed.

Lemma select_foreign i uid ns d :
  ns !! i = Some d → noteSchema.user d ≠ uid → Note.select i uid ns = None.
Proof. intros Hd Hu. unfold Note.select. by rewrite Hd, decide_False. Qed.

Lemma select_absent i uid ns : ns !! i = None → Note.select i uid ns = None.
Proof. intros Hd. unfold Note.select. by rewrite Hd. Qed.

Lemma select_inv i uid ns e :
  Note.select i uid ns = Some e →
  e.1 = i ∧ ns !! i = Some e.2 ∧ noteSchema.user e.2 = uid.
Proof.
  unfold Note.select. destruct (ns !! i) as [d|]; [|done].
  case_decide; [|done]. by intros [= <-].
Qed.
End select.

(** The casts of a body field that holds a string, and of a missing one. *)
Lemma cast_string `{Q : mongoose.impl} s :
  SchemaString.cast (Some (JStr s)) = Some (Some s).
Proof. reflexivity. Qed.

Lemma castUpdate_string `{Q : mongoose.impl} s :
  SchemaString.castUpdate (Some (JStr s)) = Some (Assigned (Some s)).
Proof. reflexivity. Qed.

Lemma castUpdate_undefined `{Q : mongoose.impl} :
  SchemaString.castUpdate None = Some Untouched.
Proof. reflexivity. Qed.

Section run_notes.
Context `{Q : mongoose.impl}.
Variables (env : Env) (uid : ObjectId) (w : World).

Lemma getNoteById_run id :
  getNoteById uid id w =
  match castObjectId id with
  | None => (server_error "Internal server error",
             log [EvConsoleError "Error in getNoteById controller:"] w)
  | Some i =>
      match Note.select i uid (notes w) with
      | Some note => ({| status := 200; body := NoteBody note |},
                      log [EvNoteFindOne] w)
      | None => (not_found "Note not found!", log [EvNoteFindOne] w)
      end
  end.
Proof.
  unfold getNoteById. unfold_M.
  destruct (castObjectId id) as [i|]; [|done]. cbn.
  by destruct (Note.select i uid (notes w)).
Qed.

Lemma updateNote_run id title content :
  updateNote env uid id title content w =
  match castObjectId id with
  | None => (server_error "Internal server error",
             log [EvConsoleError "Error in updateNote controller:"] w)
  | Some i =>
      match SchemaString.castUpdate title, SchemaString.castUpdate content with
      | Some t, Some c =>
          match Note.select i uid (notes w) with
          | Some (j, d) =>
              let d' := Note.apply_update env t c d in
              ({| status := 200; body := NoteBody (j, d') |},
               mkWorld (users w) (<[j := d']> (notes w))
                 (trace w ++ [EvNoteFindOneAndUpdate]))
          | None => (not_found "Note not found", log [EvNoteFindOneAndUpdate] w)
          end
      | _, _ => (server_error "Internal server error",
                 log [EvConsoleError "Error in updateNote controller:"] w)
      end
  end.
Proof.
  unfold updateNote. unfold_M.
  destruct (castObjectId id) as [i|]; [|done]. cbn.
  destruct (SchemaString.castUpdate title) as [t|]; [|done].
  destruct (SchemaString.castUpdate content) as [c|]; [|done]. cbn.
  by destruct (Note.select i uid (notes w)) as [[j d]|].
Qed.

Lemma deleteNote_run id :
  deleteNote uid id w =
  match castObjectId id with
  | None => (server_error "Internal server error",
             log [EvConsoleError "Error in deleteNote controller:"] w)
  | Some i =>
      match Note.select i uid (notes w) with
      | Some (j, d) =>
          ({| status := 200; body := Message "Note deleted successfully!" |},
           mkWorld (users w) (delete j (notes w))
             (trace w ++ [EvNoteFindOneAndDelete]))
      | None => (not_found "Note not found", log [EvNoteFindOneAndDelete] w)
      end
  end.
Proof.
  unfold deleteNote. unfold_M.
  destruct (castObjectId id) as [i|]; [|done]. cbn.
  by destruct (Note.select i uid (notes w)) as [[j d]|].
Qed.

Lemma createNote_run title content :
  createNote env uid title content w =
  if negb (noteSchema.path_valid (SchemaString.cast title)
           && noteSchema.path_valid (SchemaString.cast content))
  then (server_error "Internal server error",
        log [EvConsoleError "Error in createNote controller:"] w)
  else if decide (is_Some (notes w !! new_ObjectId env))
  then (server_error "Internal server error",
        log [EvNoteSave; EvConsoleError "Error in createNote controller:"] w)
  else
    let d := noteSchema.mk (default None (SchemaString.cast title))
               (default None (SchemaString.cast content)) uid
               (Date_now env) (Date_now env) in
    ({| status := 201; body := NoteBody (new_ObjectId env, d) |},
     mkWorld (users w) (<[new_ObjectId env := d]> (notes w))
       (trace w ++ [EvNoteSave])).
Proof.
  unfold createNote. unfold_M. unfold Note.new, noteSchema.validate. cbn.
  destruct (noteSchema.path_valid (SchemaString.cast title)
            && noteSchema.path_valid (SchemaString.cast content));
    [|done]. cbn.
  case_decide; same_trace.
Qed.

Lemma getAllNotes_run :
  getAllNotes uid w =
  ({| status := 200;
      body := NotesBody (merge_sort Note.newest_first
                (map_to_list (filter (Note.owned_by uid) (notes w)))) |},
   log [EvNoteFind] w).
Proof. reflexivity. Qed.
End run_notes.

(** ** Ownership: another user's note is a missing note *)

(** C1 (as amended).  A note owned by someone else is answered exactly like
    a note that is not there: for a note [n] stored under [i] whose owner is
    not [b], and a URL segment [id] that denotes [i], [getNoteById] and
    [deleteNote] called with identity [b] answer 404 with the handler's
    not-found message, and so does [updateNote] whenever the title and the
    content of the body cast; a body that does not cast is answered 500.
    In every case no stored document changes, no answer carries a note, and
    the whole outcome (answer and world) equals the outcome for any
    well-formed identifier [j] under which no note is stored. *)
Theorem foreign_note_is_not_found `{Q : mongoose.impl}
    env w i n b id title content :
  notes w !! i = Some n → noteSchema.user n ≠ b → castObjectId id = Some i →
  let get := getNoteById b id w in
  let upd := updateNote env b id title content w in
  let del := deleteNote b id w in
  (get.1 = not_found "Note not found!"
   ∧ (is_Some (SchemaString.castUpdate title) →
      is_Some (SchemaString.castUpdate content) →
      upd.1 = not_found "Note not found")
   ∧ (SchemaString.castUpdate title = None
      ∨ SchemaString.castUpdate content = None →
      upd.1 = server_error "Internal server error")
   ∧ del.1 = not_found "Note not found")
  ∧ (same_db w get.2 ∧ same_db w upd.2 ∧ same_db w del.2)
  ∧ (∀ note, body get.1 ≠ NoteBody note ∧ body upd.1 ≠ NoteBody note
       ∧ body del.1 ≠ NoteBody note)
  ∧ (∀ id' j, castObjectId id' = Some j → notes w !! j = None →
       getNoteById b id' w = get
       ∧ updateNote env b id' title content w = upd
       ∧ deleteNote b id' w = del).
Proof.
  intros Hn Hb Hid. cbv zeta.
  rewrite getNoteById_run, updateNote_run, deleteNote_run, Hid.
  rewrite (select_foreign _ _ _ _ Hn Hb). cbn.
  split_and!; auto with notes.
  - intros [t ->] [c ->]. done.
  - intros [-> | ->]; [done|]. by destruct (SchemaString.castUpdate title).
  - by destruct (SchemaString.castUpdate title),
      (SchemaString.castUpdate content).
  - intros note. split_and!; try done.
    by destruct (SchemaString.castUpdate title),
      (SchemaString.castUpdate content).
  - intros id' j Hid' Hj.
    rewrite getNoteById_run, updateNote_run, deleteNote_run, Hid'.
    by rewrite (select_absent _ _ _ Hj).
Qed.

(** ** Update *)

(** C6 (as amended).  [updateNote] casts the URL segment to an identifier and
    the body's title and content to an update, and then finds-and-updates
    under the filter on both [_id] and owner: a note stored under that
    identifier and owned by the caller is replaced by its updated version,
    which is returned with status 200, no other document changing; when that
    identifier holds no note, or a note of another owner, the answer is 404
    "Note not found" and no document changes; when the segment is not a
    well-formed identifier, or the title or the content does not cast (an
    array never does), the cast throws and the answer is 500, again with no
    document changed. *)
Theorem updateNote_dual_filter `{Q : mongoose.impl}
    env uid id title content w :
  let out := updateNote env uid id title content w in
  (∀ i d t c, castObjectId id = Some i → notes w !! i = Some d →
     noteSchema.user d = uid →
     SchemaString.castUpdate title = Some t →
     SchemaString.castUpdate content = Some c →
     let d' := Note.apply_update env t c d in
     out.1 = {| status := 200; body := NoteBody (i, d') |}
     ∧ notes out.2 = <[i := d']> (notes w) ∧ users out.2 = users w)
  ∧ (∀ i, castObjectId id = Some i → notes w !! i = None →
       is_Some (SchemaString.castUpdate title) →
       is_Some (SchemaString.castUpdate content) →
       out.1 = not_found "Note not found" ∧ same_db w out.2)
  ∧ (∀ i d, castObjectId id = Some i → notes w !! i = Some d →
       noteSchema.user d ≠ uid →
       is_Some (SchemaString.castUpdate title) →
       is_Some (SchemaString.castUpdate content) →
       out.1 = not_found "Note not found" ∧ same_db w out.2)
  ∧ (castObjectId id = None ∨ SchemaString.castUpdate title = None
     ∨ SchemaString.castUpdate content = None →
       out.1 = server_error "Internal server error" ∧ same_db w out.2).
Proof.
  cbv zeta. rewrite updateNote_run. split_and!.
  - intros i d t c -> Hd Hu -> ->. by rewrite (select_Some _ _ _ _ Hd Hu).
  - intros i -> Hd [t ->] [c ->]. rewrite (select_absent _ _ _ Hd). cbn.
    auto with notes.
  - intros i d -> Hd Hu [t ->] [c ->]. rewrite (select_foreign _ _ _ _ Hd Hu).
    cbn. auto with notes.
  - intros Hbad. destruct (castObjectId id) as [i|]; [|cbn; auto with notes].
    destruct Hbad as [?|[-> | ->]]; [done|cbn; auto with notes|].
    destruct (SchemaString.castUpdate title); cbn; auto with notes.
Qed.

(** ** Delete *)

(** C7 (as amended).  [deleteNote] casts the URL segment and then
    finds-and-removes under the same two-part filter: a note stored under
    that identifier and owned by the caller is removed outright (the
    identifier maps to nothing afterwards, every other note is untouched, a
    later read of it is a 404) and the answer is 200 "Note deleted
    successfully!"; when the identifier holds no note or a note of another
    owner the answer is 404 and nothing is removed; a segment that is not a
    well-formed identifier is answered 500, nothing removed. *)
Theorem deleteNote_dual_filter uid id w :
  let out := deleteNote uid id w in
  (∀ i d, castObjectId id = Some i → notes w !! i = Some d →
     noteSchema.user d = uid →
     out.1 = {| status := 200; body := Message "Note deleted successfully!" |}
     ∧ notes out.2 = delete i (notes w) ∧ users out.2 = users w
     ∧ notes out.2 !! i = None
     ∧ (∀ j, j ≠ i → notes out.2 !! j = notes w !! j)
     ∧ (getNoteById uid id out.2).1 = not_found "Note not found!")
  ∧ (∀ i, castObjectId id = Some i → notes w !! i = None →
       out.1 = not_found "Note not found" ∧ same_db w out.2)
  ∧ (∀ i d, castObjectId id = Some i → notes w !! i = Some d →
       noteSchema.user d ≠ uid →
       out.1 = not_found "Note not found" ∧ same_db w out.2)
  ∧ (castObjectId id = None →
       out.1 = server_error "Internal server error" ∧ same_db w out.2).
Proof.
  cbv zeta. rewrite deleteNote_run. split_and!.
  - intros i d Hid Hd Hu. rewrite Hid, (select_Some _ _ _ _ Hd Hu). cbn.
    split_and!; try done.
    + apply lookup_delete_eq.
    + intros j Hj. by apply lookup_delete_ne.
    + rewrite getNoteById_run, Hid. cbn.
      by rewrite select_absent by apply lookup_delete_eq.
  - intros i -> Hd. rewrite (select_absent _ _ _ Hd). cbn. auto with notes.
  - intros i d -> Hd Hu. rewrite (select_foreign _ _ _ _ Hd Hu). cbn.
    auto with notes.
  - intros ->. cbn. auto with notes.
Qed.

(** ** Create, then read *)

Lemma required_Some s : s ≠ "" → SchemaString.required (Some s) = true.
Proof.
  intros Hs. unfold SchemaString.required.
  change (js_not (Some s)) with (bool_decide (s = "")).
  by rewrite bool_decide_eq_false_2.
Qed.

(** C8 (as amended).  For a title and a content that cast to non-empty
    strings (a non-empty string casts to itself), and a freshly generated
    12-byte identifier, [createNote] answers 201 with the new note: its owner
    is the authenticated identity (the body supplies only title and
    content), its identifier is the generated one and both dates are the
    time of the call; the note is the only change to the store; and
    [getNoteById] by the same user with that identifier returns the same
    record, title and content included. *)
Theorem createNote_then_getNoteById `{Q : mongoose.impl}
    env uid title content t c w :
  SchemaString.cast title = Some (Some t) →
  SchemaString.cast content = Some (Some c) →
  t ≠ "" → c ≠ "" →
  notes w !! new_ObjectId env = None → valid_ObjectId (new_ObjectId env) →
  let created := createNote env uid title content w in
  let note : lean :=
    (new_ObjectId env,
     noteSchema.mk (Some t) (Some c) uid (Date_now env) (Date_now env)) in
  created.1 = {| status := 201; body := NoteBody note |}
  ∧ notes created.2 = <[note.1 := note.2]> (notes w)
  ∧ users created.2 = users w
  ∧ (getNoteById uid (toHexString note.1) created.2).1
    = {| status := 200; body := NoteBody note |}.
Proof.
  intros Htitle Hcontent Ht Hc Hfresh Hvalid. cbv zeta.
  rewrite createNote_run, Htitle, Hcontent.
  cbn [noteSchema.path_valid]. rewrite !required_Some by done.
  cbn [andb negb].
  rewrite decide_False by (rewrite Hfresh; by intros [? ?]).
  cbn [fst snd notes users from_option id].
  split_and!; try reflexivity.
  rewrite getNoteById_run, castObjectId_toHexString by done.
  cbn [notes].
  erewrite select_Some; [done|apply lookup_insert_eq|done].
Qed.

(** ** List *)

Global Instance newest_first_trans : Transitive Note.newest_first.
Proof. unfold Note.newest_first. intros a b c ??. lia. Qed.

Global Instance newest_first_total : Total Note.newest_first.
Proof. unfold Note.newest_first. intros a b. lia. Qed.

(** C9.  [getAllNotes] answers 200 with exactly the notes owned by the
    caller, each once, newest [createdAt] first, and changes no document;
    for a caller who owns no note the list is empty, still with status 200. *)
Theorem getAllNotes_owned_newest_first uid w :
  ∃ l,
    getAllNotes uid w
    = ({| status := 200; body := NotesBody l |}, log [EvNoteFind] w)
    ∧ (∀ i d, (i, d) ∈ l ↔ notes w !! i = Some d ∧ noteSchema.user d = uid)
    ∧ NoDup l
    ∧ StronglySorted Note.newest_first l
    ∧ ((∀ i d, notes w !! i = Some d → noteSchema.user d ≠ uid) → l = []).
Proof.
  eexists. split; [apply getAllNotes_run|].
  set (owned := filter (Note.owned_by uid) (notes w)).
  assert (Hperm : merge_sort Note.newest_first (map_to_list owned)
                  ≡ₚ map_to_list owned) by apply merge_sort_Permutation.
  split_and!.
  - intros i d. rewrite Hperm, elem_of_map_to_list.
    unfold owned. by rewrite map_lookup_filter_Some.
  - rewrite Hperm. apply NoDup_map_to_list.
  - apply StronglySorted_merge_sort; apply _.
  - intros Hnone. replace owned with (∅ : gmap ObjectId noteSchema.doc).
    + by rewrite map_to_list_empty.
    + symmetry. apply map_empty. intros i.
      apply map_lookup_filter_None. right. intros d Hd Hu. by apply (Hnone i d).
Qed.

(** ** What an update may touch *)

(** C10.  Whenever [updateNote] answers 200, a note of the caller was stored
    under the identifier the URL segment denotes, and the store afterwards
    differs only in that note: it is still stored under the same identifier,
    with the same owner and the same [createdAt]; its title and content are
    what the body's title and content cast to where the body gives them (the
    string itself for a string, [null] for [null]) and the previous ones
    where it does not; [updatedAt] is the time of the call.  And the update
    of a note of the caller does answer 200 whenever the title and the
    content each are missing or cast, as every string does, the empty one
    included: no validation stands in the way, and a missing title or content
    leaves the stored one as it was. *)
Theorem updateNote_frame `{Q : mongoose.impl} env uid id title content w :
  let out := updateNote env uid id title content w in
  (status out.1 = 200 →
     ∃ i d d' t c,
       castObjectId id = Some i ∧ notes w !! i = Some d
       ∧ noteSchema.user d = uid
       ∧ SchemaString.castUpdate title = Some t
       ∧ SchemaString.castUpdate content = Some c
       ∧ out.1 = {| status := 200; body := NoteBody (i, d') |}
       ∧ notes out.2 = <[i := d']> (notes w) ∧ users out.2 = users w
       ∧ noteSchema.user d' = noteSchema.user d
       ∧ noteSchema.createdAt d' = noteSchema.createdAt d
       ∧ noteSchema.updatedAt d' = Date_now env
       ∧ noteSchema.title d' = SchemaString.assign t (noteSchema.title d)
       ∧ noteSchema.content d' = SchemaString.assign c (noteSchema.content d)
       ∧ (title = None → noteSchema.title d' = noteSchema.title d)
       ∧ (content = None → noteSchema.content d' = noteSchema.content d)
       ∧ (∀ s, title = Some (JStr s) → noteSchema.title d' = Some s)
       ∧ (∀ s, content = Some (JStr s) → noteSchema.content d' = Some s))
  ∧ (∀ i d, castObjectId id = Some i → notes w !! i = Some d →
       noteSchema.user d = uid →
       is_Some (SchemaString.castUpdate title) →
       is_Some (SchemaString.castUpdate content) →
       status out.1 = 200
       ∧ ∃ d', notes out.2 !! i = Some d'
           ∧ (title = None → noteSchema.title d' = noteSchema.title d)
           ∧ (content = None → noteSchema.content d' = noteSchema.content d))
  ∧ (∀ v, (v = None ∨ (∃ s, v = Some (JStr s)) ∨ v = Some JNull) →
       is_Some (SchemaString.castUpdate v)).
Proof.
  cbv zeta. rewrite updateNote_run. split_and!.
  - destruct (castObjectId id) as [i|]; [|done].
    destruct (SchemaString.castUpdate title) as [t|] eqn:Ht; [|done].
    destruct (SchemaString.castUpdate content) as [c|] eqn:Hc; [|done].
    destruct (Note.select i uid (notes w)) as [[j d]|] eqn:Hsel; [|done].
    apply select_inv in Hsel as (Hj & Hd & Hu). simpl in Hj, Hd, Hu. subst j.
    intros _. exists i, d, (Note.apply_update env t c d), t, c.
    split_and!; try done.
    + intros ->. by injection Ht as <-.
    + intros ->. by injection Hc as <-.
    + intros s ->. by injection Ht as <-.
    + intros s ->. by injection Hc as <-.
  - intros i d -> Hd Hu [t Ht] [c Hc]. rewrite Ht, Hc.
    rewrite (select_Some _ _ _ _ Hd Hu). cbn.
    split; [done|]. eexists. split; [apply lookup_insert_eq|].
    split; intros ->; cbn.
    + by injection Ht as <-.
    + by injection Hc as <-.
  - intros v [-> |[[s ->]| ->]]; by eexists.
Qed.

(** ** Running the authentication handlers *)

Lemma js_not_Some s : s ≠ "" → js_not (Some s) = false.
Proof. intros Hs. by apply bool_decide_eq_false_2. Qed.

Lemma js_not_str s : s ≠ "" → js_not (Some (JStr s)) = false.
Proof. intros Hs. by apply bool_decide_eq_false_2. Qed.

(** The filter and the document cast of a username that is a string. *)
Lemma query_string `{Q : mongoose.impl} u us :
  User.query (Some (JStr u)) us = Some (User.lookup (JsString.trim u) us).
Proof. reflexivity. Qed.

Lemma username_cast_string `{Q : mongoose.impl} u :
  userSchema.username_cast (Some (JStr u)) = Some (Some (JsString.trim u)).
Proof. reflexivity. Qed.

(** The same for every value with a text of its own: numbers and booleans
    are looked up, and stored, under their trimmed text. *)
Lemma query_primitive `{Q : mongoose.impl} v text us :
  primitive_text v = Some text →
  User.query (Some v) us = Some (User.lookup (JsString.trim text) us).
Proof. intros Hv. unfold User.query. rewrite Hv. by destruct v. Qed.

Lemma username_cast_primitive `{Q : mongoose.impl} v text :
  primitive_text v = Some text →
  userSchema.username_cast (Some v) = Some (Some (JsString.trim text)).
Proof.
  intros Hv. unfold userSchema.username_cast, SchemaString.cast.
  destruct v; try done; by rewrite Hv.
Qed.

Section run_auth.
Context `{B : bcrypt.impl} `{Q : mongoose.impl}.
Variables (env : Env) (w : World).

Lemma login_run username password :
  login env username password w =
  if js_not username || js_not password
  then (bad_request "Username and password are required", w)
  else
    match User.query username (users w) with
    | None => (server_error "Server error",
               log [EvConsoleError "Login error:"] w)
    | Some None => (bad_request "Invalid credentials", log [EvUserFindOne] w)
    | Some (Some (i, d)) =>
        match js_string password with
        | None => (server_error "Server error",
                   log [EvUserFindOne; EvCompare;
                        EvConsoleError "Login error:"] w)
        | Some p =>
            if bcrypt.compareSync p (userSchema.password d)
            then ({| status := 200;
                     body := Session
                       (jwt.sign env i (userSchema.username d) (secret env)
                          jwt.expiresIn_1h)
                       {| su_id := i; su_username := userSchema.username d |} |},
                  log [EvUserFindOne; EvCompare] w)
            else (bad_request "Invalid credentials",
                  log [EvUserFindOne; EvCompare] w)
        end
    end.
Proof.
  unfold login. unfold_M.
  destruct (js_not username || js_not password); [done|]. cbn.
  destruct (User.query username (users w)) as [[[i d]|]|]; [|done..]. cbn.
  destruct (js_string password) as [p|]; cbn; [|same_trace].
  destruct (bcrypt.compareSync _ _); same_trace.
Qed.

Lemma register_run username password :
  register env username password w =
  if js_not username || js_not password
  then (bad_request "Username and password are required", w)
  else
    match User.query username (users w) with
    | None => (server_error "Server error",
               log [EvConsoleError "Registration error:"] w)
    | Some (Some _) =>
        (bad_request "Username already exists", log [EvUserFindOne] w)
    | Some None =>
        let rejected :=
          (server_error "Server error",
           log [EvUserFindOne; EvGenSalt; EvHash;
                EvConsoleError "Registration error:"] w) in
        let refused :=
          (server_error "Server error",
           log [EvUserFindOne; EvGenSalt; EvHash; EvUserSave;
                EvConsoleError "Registration error:"] w) in
        match js_string password with
        | None => rejected
        | Some p =>
            match userSchema.username_cast username with
            | Some (Some name) =>
                let hashed := bcrypt.hashSync p (random_salt env) in
                let d := userSchema.mk name hashed (Date_now env)
                           (Date_now env) in
                if negb (userSchema.validate d) then rejected
                else if decide (is_Some (users w !! new_ObjectId env))
                then refused
                else if decide (is_Some (User.lookup name (users w)))
                then refused
                else ({| status := 201;
                         body := Message "User registered successfully" |},
                      mkWorld (<[new_ObjectId env := d]> (users w)) (notes w)
                        (trace w ++ [EvUserFindOne; EvGenSalt; EvHash;
                                     EvUserSave]))
            | _ => rejected
            end
        end
    end.
Proof.
  unfold register. unfold_M.
  destruct (js_not username || js_not password); [done|]. cbn.
  destruct (User.query username (users w)) as [[[i d]|]|]; [done| |done]. cbn.
  destruct (js_string password) as [p|]; cbn; [|same_trace].
  unfold User.new, userSchema.document. cbn.
  destruct (userSchema.username_cast username) as [[name|]|]; cbn;
    [|same_trace..].
  destruct (userSchema.validate _); cbn; [|same_trace].
  case_decide; cbn; [same_trace|].
  case_decide; cbn; same_trace.
Qed.
End run_auth.

(** ** Schema validation of a user *)

Lemma length_nonempty s : (0 < String.length s)%nat → s ≠ "".
Proof. intros Hs ->. simpl in Hs. lia. Qed.

Lemma username_valid_iff s :
  userSchema.username_valid s = true ↔ (3 ≤ String.length s)%nat.
Proof.
  unfold userSchema.username_valid, SchemaString.minlength.
  rewrite andb_true_iff, bool_decide_eq_true. split; [by intros [_ ?]|].
  intros Hs. split; [|done].
  apply required_Some, length_nonempty. lia.
Qed.

Lemma password_valid_iff s :
  userSchema.password_valid s = true ↔ (6 ≤ String.length s)%nat.
Proof.
  unfold userSchema.password_valid, SchemaString.minlength.
  rewrite andb_true_iff, bool_decide_eq_true. split; [by intros [_ ?]|].
  intros Hs. split; [|done].
  apply required_Some, length_nonempty. lia.
Qed.

Lemma validate_user `{B : bcrypt.impl} `{!bcrypt.correct B} name p salt c u :
  userSchema.validate (userSchema.mk name (bcrypt.hashSync p salt) c u)
  = bool_decide (3 ≤ String.length name)%nat.
Proof.
  unfold userSchema.validate. cbn [userSchema.username userSchema.password].
  assert (userSchema.password_valid (bcrypt.hashSync p salt) = true) as ->.
  { apply password_valid_iff. rewrite bcrypt.hash_length. lia. }
  rewrite andb_true_r. pose proof (username_valid_iff name) as Hiff.
  destruct (userSchema.username_valid name); symmetry.
  - apply bool_decide_eq_true, Hiff. done.
  - apply bool_decide_eq_false. intros Hlen%Hiff. done.
Qed.

(** The outcome of a registration that goes through, for a password that is
    a string and a username [name] once cast and trimmed. *)
Lemma register_created `{B : bcrypt.impl} `{!bcrypt.correct B}
    `{Q : mongoose.impl} env username p name w :
  js_not username = false → p ≠ "" →
  User.query username (users w) = Some None →
  userSchema.username_cast username = Some (Some name) →
  (3 ≤ String.length name)%nat →
  User.lookup name (users w) = None →
  users w !! new_ObjectId env = None →
  register env username (Some (JStr p)) w
  = ({| status := 201; body := Message "User registered successfully" |},
     mkWorld
       (<[new_ObjectId env :=
            userSchema.mk name (bcrypt.hashSync p (random_salt env))
              (Date_now env) (Date_now env)]> (users w))
       (notes w)
       (trace w ++ [EvUserFindOne; EvGenSalt; EvHash; EvUserSave])).
Proof.
  intros Hu Hp Hquery Hcast Hlen Hnone Hfresh.
  rewrite register_run, Hu, js_not_str by done.
  cbn [orb js_string]. cbv zeta. rewrite Hquery, Hcast.
  rewrite validate_user, bool_decide_eq_true_2 by done. cbn [negb].
  rewrite decide_False by (rewrite Hfresh; by intros [? ?]).
  by rewrite decide_False by (rewrite Hnone; by intros [? ?]).
Qed.

(** The same for a username that is a string. *)
Lemma register_created_string `{B : bcrypt.impl} `{!bcrypt.correct B}
    `{Q : mongoose.impl} env u p w :
  u ≠ "" → p ≠ "" →
  User.lookup (JsString.trim u) (users w) = None →
  (3 ≤ String.length (JsString.trim u))%nat →
  users w !! new_ObjectId env = None →
  register env (Some (JStr u)) (Some (JStr p)) w
  = ({| status := 201; body := Message "User registered successfully" |},
     mkWorld
       (<[new_ObjectId env :=
            userSchema.mk (JsString.trim u)
              (bcrypt.hashSync p (random_salt env))
              (Date_now env) (Date_now env)]> (users w))
       (notes w)
       (trace w ++ [EvUserFindOne; EvGenSalt; EvHash; EvUserSave])).
Proof.
  intros Hu Hp Hnone Hlen Hfresh.
  apply register_created; try done.
  - by apply js_not_str.
  - by rewrite query_string, Hnone.
Qed.

(** ** Login failures *)


(** ** Registration *)

(** [register] keeps the stored usernames trimmed. *)
Lemma register_keeps_usernames_trimmed `{B : bcrypt.impl}
    `{Q : mongoose.impl} env username password w :
  usernames_trimmed w →
  usernames_trimmed (register env username password w).2.
Proof.
  intros Hwf. rewrite register_run.
  destruct (js_not username || js_not password); [done|]. cbv zeta.
  destruct (User.query _ _) as [[?|]|]; [done| |done].
  destruct (js_string password) as [p|]; [|done].
  destruct (userSchema.username_cast username) as [[name|]|] eqn:Hcast;
    [|done..].
  destruct (userSchema.validate _); cbn [negb]; [|done].
  case_decide; [done|]. case_decide; [done|]. intros i d. cbn [snd users].
  rewrite lookup_insert. case_decide; [|by apply Hwf].
  intros [= <-]. cbn [userSchema.username].
  unfold userSchema.username_cast in Hcast.
  destruct (SchemaString.cast username) as [[s|]|]; try done.
  injection Hcast as <-. apply trim_idemp.
Qed.

(** The handlers that do not write users keep them trimmed. *)
Lemma usernames_trimmed_same_db w w' :
  same_db w w' → usernames_trimmed w → usernames_trimmed w'.
Proof. intros [Hu _] Hwf i d. rewrite Hu. apply Hwf. Qed.

(** On such a store, a user stored under a name is found by the lookup that
    [register] and [login] make for that name. *)
Lemma lookup_user_stored w i d :
  usernames_trimmed w → users w !! i = Some d →
  is_Some (User.lookup (JsString.trim (userSchema.username d)) (users w)).
Proof.
  intros Hwf Hd. rewrite (Hwf i d Hd). by eapply lookup_user_is_Some.
Qed.

(** C3 (as amended).  [register] answers, in this order: 400 "Username and
    password are required", nothing persisted, when either field is missing
    or falsy; 500 "Server error" when the query for the username is
    refused; 400 "Username already exists", nothing persisted, when the
    query finds a stored user (for a username that is a string: when a
    stored user has the trimmed name; on a store whose usernames are
    trimmed, as [register] keeps them: when a stored user has that very
    name); 500 "Server error", nothing persisted, when the password is not a
    string, since hashing rejects it; otherwise, for a password that is a
    string, when the username casts to a name that, trimmed, has at least 3
    characters (and the generated identifier and the name are free), 201
    "User registered successfully" with exactly one user added, holding the
    trimmed name and the bcrypt hash of the password under the salt drawn
    for this call, so that a second registration of the same name is
    answered 400 "Username already exists"; and when the username does not
    cast or the trimmed name is shorter than 3 characters the schema rejects
    the save: 500 "Server error", nothing persisted. *)
Theorem register_outcomes `{B : bcrypt.impl} `{!bcrypt.correct B}
    `{Q : mongoose.impl} env username password w :
  let out := register env username password w in
  (js_not username || js_not password = true →
     out.1 = bad_request "Username and password are required" ∧ out.2 = w)
  ∧ (∀ u p, username = Some (JStr u) → password = Some (JStr p) →
       u ≠ "" → p ≠ "" →
       let name := JsString.trim u in
       (is_Some (User.lookup name (users w)) →
          out.1 = bad_request "Username already exists" ∧ same_db w out.2)
       ∧ (usernames_trimmed w →
          (∃ i d, users w !! i = Some d ∧ userSchema.username d = u) →
          out.1 = bad_request "Username already exists" ∧ same_db w out.2)
       ∧ (User.lookup name (users w) = None →
          (3 ≤ String.length name)%nat →
          users w !! new_ObjectId env = None →
          let d := userSchema.mk name
                     (bcrypt.hashSync p (random_salt env))
                     (Date_now env) (Date_now env) in
          out.1 = {| status := 201;
                     body := Message "User registered successfully" |}
          ∧ users out.2 = <[new_ObjectId env := d]> (users w)
          ∧ notes out.2 = notes w
          ∧ (∀ env' password', js_not password' = false →
               (register env' (Some (JStr u)) password' out.2).1
               = bad_request "Username already exists"))
       ∧ (User.lookup name (users w) = None →
          (String.length name < 3)%nat →
          out.1 = server_error "Server error" ∧ same_db w out.2))
  ∧ (js_not username || js_not password = false →
       (User.query username (users w) = None →
          out.1 = server_error "Server error" ∧ same_db w out.2)
       ∧ (∀ e, User.query username (users w) = Some (Some e) →
            out.1 = bad_request "Username already exists" ∧ same_db w out.2)
       ∧ (User.query username (users w) = Some None →
            js_string password = None →
            out.1 = server_error "Server error" ∧ same_db w out.2)
       ∧ (∀ p name, User.query username (users w) = Some None →
            password = Some (JStr p) →
            userSchema.username_cast username = Some (Some name) →
            (3 ≤ String.length name)%nat →
            User.lookup name (users w) = None →
            users w !! new_ObjectId env = None →
            let d := userSchema.mk name
                       (bcrypt.hashSync p (random_salt env))
                       (Date_now env) (Date_now env) in
            out.1 = {| status := 201;
                       body := Message "User registered successfully" |}
            ∧ users out.2 = <[new_ObjectId env := d]> (users w)
            ∧ notes out.2 = notes w)
       ∧ (User.query username (users w) = Some None →
            (∀ name, userSchema.username_cast username = Some (Some name) →
               (String.length name < 3)%nat
               ∨ is_Some (User.lookup name (users w))
               ∨ is_Some (users w !! new_ObjectId env)) →
            out.1 = server_error "Server error" ∧ same_db w out.2)).
Proof.
  cbv zeta. split_and!.
  - intros Hmissing. by rewrite register_run, Hmissing.
  - intros u p -> -> Hu Hp.
    rewrite register_run, !js_not_str by done.
    cbn [orb js_string]. cbv zeta.
    rewrite query_string, username_cast_string, validate_user.
    split_and!.
    + intros [e ->]. cbn. auto with notes.
    + intros Hwf (i & d & Hd & <-).
      destruct (lookup_user_stored w i d Hwf Hd) as [e ->]. cbn.
      auto with notes.
    + intros Hnone Hlen Hfresh. rewrite Hnone.
      rewrite bool_decide_eq_true_2 by done. cbn [negb].
      rewrite decide_False by (rewrite Hfresh; by intros [? ?]).
      rewrite decide_False by (by intros [? ?]).
      cbn [fst snd users notes]. split_and!; try done.
      intros env' password' Hp'.
      rewrite register_run, js_not_str, Hp' by done.
      cbn [orb users]. rewrite query_string.
      by rewrite lookup_user_insert.
    + intros Hnone Hlen. rewrite Hnone.
      rewrite bool_decide_eq_false_2 by lia. cbn. auto with notes.
  - intros Hfields. rewrite register_run, Hfields. cbv zeta. split_and!.
    + intros ->. cbn. auto with notes.
    + intros e ->. cbn. auto with notes.
    + intros -> ->. cbn. auto with notes.
    + intros p name -> -> -> Hlen Hnone Hfresh. cbn [js_string].
      rewrite validate_user, bool_decide_eq_true_2 by done. cbn [negb].
      rewrite decide_False by (rewrite Hfresh; by intros [? ?]).
      by rewrite decide_False by (rewrite Hnone; by intros [? ?]).
    + intros -> Hbad. destruct (js_string password) as [p|];
        [|cbn; auto with notes].
      destruct (userSchema.username_cast username) as [[name|]|];
        [|cbn; auto with notes..].
      rewrite validate_user.
      destruct (Hbad name eq_refl) as [Hlen|[Htaken|Hid]].
      * rewrite bool_decide_eq_false_2 by lia. cbn. auto with notes.
      * destruct (bool_decide _); cbn; [|auto with notes].
        case_decide; cbn; [auto with notes|].
        rewrite decide_True by done. cbn. auto with notes.
      * destruct (bool_decide _); cbn; [|auto with notes].
        rewrite decide_True by done. cbn. auto with notes.
Qed.

(** ** Register, then log in *)

(** C4 (as amended).  For a username whose trimmed form has at least 3
    characters and is not yet registered, and a password of at least 6
    characters, [register] answers 201 and a following [login] with the same
    username and password answers 200 with a token whose payload names the
    new user's identifier and the trimmed username, which is the username
    itself when it carries no surrounding white space. *)
Theorem register_then_login `{B : bcrypt.impl} `{!bcrypt.correct B}
    `{Q : mongoose.impl} env env' u p w :
  (3 ≤ String.length (JsString.trim u))%nat → (6 ≤ String.length p)%nat →
  User.lookup (JsString.trim u) (users w) = None →
  users w !! new_ObjectId env = None →
  let registered := register env (Some (JStr u)) (Some (JStr p)) w in
  registered.1 = {| status := 201;
                    body := Message "User registered successfully" |}
  ∧ ∃ tok,
      (login env' (Some (JStr u)) (Some (JStr p)) registered.2).1
      = {| status := 200;
           body := Session tok {| su_id := new_ObjectId env;
                                  su_username := JsString.trim u |} |}
      ∧ jwt.id (jwt.claims tok) = new_ObjectId env
      ∧ jwt.username (jwt.claims tok) = JsString.trim u
      ∧ (JsString.trim u = u → jwt.username (jwt.claims tok) = u).
Proof.
  intros Hu Hp Hnone Hfresh.
  assert (u ≠ "") as Hu0.
  { intros ->. rewrite trim_empty in Hu. simpl in Hu. lia. }
  assert (p ≠ "") as Hp0 by (apply length_nonempty; lia).
  cbv zeta. rewrite register_created_string by done. split; [done|]. eexists.
  rewrite login_run, !js_not_str by done.
  cbn [orb js_string snd users]. rewrite query_string.
  rewrite lookup_user_insert by done.
  cbn [userSchema.password userSchema.username].
  rewrite bcrypt.compare_hash. cbn [fst].
  split; [reflexivity|]. cbn. by split_and!.
Qed.

(** ** A successful login *)

(** A user that the query for a username finds is a stored user, and one
    found for a string, a number or a boolean bears its trimmed text as
    name. *)
Lemma query_found `{Q : mongoose.impl} `{!mongoose.correct Q}
    username us i d :
  User.query username us = Some (Some (i, d)) →
  us !! i = Some d
  ∧ (∀ v text, username = Some v → primitive_text v = Some text →
       userSchema.username d = JsString.trim text).
Proof.
  unfold User.query. destruct username as [v|]; [|done].
  destruct (primitive_text v) as [text|] eqn:Hv.
  - assert (Some (User.lookup (userSchema.username_setter text) us)
            = Some (Some (i, d)) →
            us !! i = Some d ∧ userSchema.username d = JsString.trim text)
      as Hlookup.
    { intros [= [? ?]%lookup_user_Some]. done. }
    destruct v; try done; intros [Hd Hname]%Hlookup; (split; [done|]);
      intros v' text' [= <-]; rewrite Hv; by intros [= <-].
  - assert (mongoose.findOne_compound userSchema.username v us
            = Some (Some (i, d)) → us !! i = Some d) as Hstored
      by apply mongoose.found_is_stored.
    destruct v; try done; intros Hd%Hstored; (split; [done|]);
      intros v' text' [= <-]; by rewrite Hv.
Qed.

(** C5.  Whenever [login] answers 200, the password was a string, the query
    for the username that was sent found a stored user (for a username that
    is a string: the user with that name, trimmed), and the password
    verified against that user's hash.  The body is the token together with
    the object [{ id, username }] of that user: the token's payload carries
    the user's identifier and username, is issued at the time of the call
    in whole seconds and expires 3600 seconds later; the body is built from
    the identifier, the username, the clock and the signing secret alone, so
    nothing of the stored hash is in it. *)
Theorem login_success_shape `{B : bcrypt.impl} `{Q : mongoose.impl}
    `{!mongoose.correct Q} env username password w :
  status (login env username password w).1 = 200 →
  ∃ i d p tok,
    User.query username (users w) = Some (Some (i, d))
    ∧ users w !! i = Some d
    ∧ (∀ u, username = Some (JStr u) →
         userSchema.username d = JsString.trim u)
    ∧ (∀ v text, username = Some v → primitive_text v = Some text →
         userSchema.username d = JsString.trim text)
    ∧ password = Some (JStr p)
    ∧ bcrypt.compareSync p (userSchema.password d) = true
    ∧ (login env username password w).1
      = {| status := 200;
           body := Session tok {| su_id := i;
                                  su_username := userSchema.username d |} |}
    ∧ tok = jwt.sign env i (userSchema.username d) (secret env) jwt.expiresIn_1h
    ∧ jwt.id (jwt.claims tok) = i
    ∧ jwt.username (jwt.claims tok) = userSchema.username d
    ∧ jwt.iat (jwt.claims tok) = Date_now env `div` 1000
    ∧ jwt.exp (jwt.claims tok) = jwt.iat (jwt.claims tok) + 3600
    ∧ same_db w (login env username password w).2.
Proof.
  rewrite login_run.
  destruct (js_not username || js_not password); [done|].
  destruct (User.query _ _) as [[[i d]|]|] eqn:Hfound; [|done..].
  destruct password as [[| | |p| |]|]; try done. cbn [js_string].
  destruct (bcrypt.compareSync _ _) eqn:Hmatch; [|done].
  intros _. apply query_found in Hfound as Hstored.
  destruct Hstored as [Hd Hname].
  exists i, d, p. eexists. split_and!; try done.
  intros u ->. by apply (Hname (JStr u) u).
Qed.

(** * The handlers on sample requests *)

Section samples.
Import sample.

Example history_reaches_db :
  users history = users db ∧ notes history = notes db.
Proof. by vm_compute. Qed.

Example list_newest_first :
  (getAllNotes alice db).1
  = {| status := 200; body := NotesBody [(second_id, second); (first_id, first)] |}.
Proof. by vm_compute. Qed.

Example hex_of_first_id : toHexString first_id = "000000000000000000000010".
Proof. reflexivity. Qed.

Example cast_upper_case : castObjectId "0000000000000000000000AB" = Some 171%N.
Proof. reflexivity. Qed.

Example cast_malformed : castObjectId "not-an-id" = None.
Proof. reflexivity. Qed.

Example trim_padded : JsString.trim "  bob  " = "bob".
Proof. reflexivity. Qed.

(** Zero is falsy, the string "0" is not, and neither is an empty array. *)
Example falsy_values :
  js_not (Some (JNum "0")) = true ∧ js_not (Some (JStr "0")) = false
  ∧ js_not (Some (JArr [])) = false ∧ js_not (Some JNull) = true.
Proof. done. Qed.

(** A number registers under its text: 1234 becomes the user "1234", who
    logs in with either. *)
Example register_number :
  let e := env 1000 bob in
  let registered := register e (Some (JNum "1234")) (str "secret1") db in
  registered.1 = {| status := 201;
                    body := Message "User registered successfully" |}
  ∧ userSchema.username <$> users registered.2 !! bob = Some "1234"
  ∧ status (login e (str "1234") (str "secret1") registered.2).1 = 200
  ∧ status (login e (Some (JNum "1234")) (str "secret1") registered.2).1 = 200.
Proof. by vm_compute. Qed.

(** With the reference Mongoose, the filter [{ "$gt": "" }] finds Alice, and
    her password then logs in without her name. *)
Example login_with_operator :
  ∃ tok,
    (login (env 5000 0%N) (Some (JObj [("$gt", JStr "")])) (str "wonderland")
       db).1
    = {| status := 200;
         body := Session tok {| su_id := alice; su_username := "alice" |} |}.
Proof. eexists. by vm_compute. Qed.

(** A title that is a number is stored as its text; a [null] title is
    refused on creation and stored on update. *)
Example note_with_number_title :
  (createNote (env 4000 18%N) alice (Some (JNum "42")) (str "three") db).1
  = {| status := 201;
       body := NoteBody (18%N, noteSchema.mk (Some "42") (Some "three")
                                 alice 4000 4000) |}
  ∧ (createNote (env 4000 18%N) alice (Some JNull) (str "three") db).1
    = server_error "Internal server error"
  ∧ (updateNote (env 9000 0%N) alice (toHexString first_id) (Some JNull) None
       db).1
    = {| status := 200;
         body := NoteBody (first_id, noteSchema.mk None (Some "one")
                                       alice 2000 9000) |}.
Proof. by vm_compute. Qed.
End samples.

(** C1 on the sample store: Bob asks for Alice's first note. *)
Lemma foreign_note_is_not_found_witness :
  (getNoteById sample.bob (toHexString sample.first_id) sample.db).1
  = not_found "Note not found!"
  ∧ (updateNote (sample.env 9000 0%N) sample.bob (toHexString sample.first_id)
       (sample.str "mine") None sample.db).1
    = not_found "Note not found"
  ∧ (deleteNote sample.bob (toHexString sample.first_id) sample.db).1
    = not_found "Note not found".
Proof.
  destruct (foreign_note_is_not_found (Q := mongoose_reference.impl)
              (sample.env 9000 0%N) sample.db sample.first_id sample.first
              sample.bob (toHexString sample.first_id)
              (sample.str "mine") None)
    as ((Hget & Hupd & _ & Hdel) & _).
  - vm_compute. reflexivity.
  - vm_compute. discriminate.
  - vm_compute. reflexivity.
  - split_and!; [exact Hget | | exact Hdel].
    apply Hupd; eexists; reflexivity.
Defined.

(** C1 as stated fails for a body that does not cast.  Bob's update of
    Alice's first note with an array for a title is answered 500, not 404:
    the update is cast before the collection is asked, and an array does not
    cast to a string.  Nothing changes, and an identifier that holds no note
    is answered the same. *)
Lemma foreign_update_array_title :
  (notes sample.db !! sample.first_id = Some sample.first
   ∧ noteSchema.user sample.first ≠ sample.bob
   ∧ castObjectId (toHexString sample.first_id) = Some sample.first_id
   ∧ notes sample.db !! 99%N = None)
  ∧ (∀ Q : mongoose.impl,
       let upd id :=
         updateNote (sample.env 9000 0%N) sample.bob id
           (Some (JArr [JStr "mine"])) (sample.str "c") sample.db in
       (upd (toHexString sample.first_id)).1
       = server_error "Internal server error"
       ∧ (upd (toHexString sample.first_id)).1 ≠ not_found "Note not found"
       ∧ same_db sample.db (upd (toHexString sample.first_id)).2
       ∧ upd (toHexString 99%N) = upd (toHexString sample.first_id)).
Proof.
  split.
  - split_and!; [by vm_compute | vm_compute; discriminate | by vm_compute..].
  - intros Q. cbv zeta. split_and!; by vm_compute.
Qed.



(** C3 on the empty store: Alice registers. *)
Lemma register_outcomes_witness :
  (register (sample.env 1000 sample.alice) (sample.str "alice")
     (sample.str "wonderland") sample.empty).1
  = {| status := 201; body := Message "User registered successfully" |}.
Proof.
  destruct (register_outcomes (B := bcrypt_reference.impl)
              (Q := mongoose_reference.impl) (sample.env 1000 sample.alice)
              (sample.str "alice") (sample.str "wonderland") sample.empty)
    as (_ & Hcases & _).
  destruct (Hcases "alice" "wonderland" eq_refl eq_refl) as (_ & _ & Hok & _).
  - discriminate.
  - discriminate.
  - refine (proj1 (Hok _ _ _)).
    + vm_compute. reflexivity.
    + vm_compute. lia.
    + vm_compute. reflexivity.
Defined.

(** C3 as stated fails twice, whatever bcrypt and Mongoose are at hand.  For
    a short name: both fields are present and no user is called "ab", yet
    the schema's [minlength: 3] rejects the save; the answer is 500 and no
    user is persisted.  And for a password that is not a string: "carol" is
    free and 123456 is truthy, yet hashing a number is rejected; the answer
    is 500 and no user is persisted. *)
Lemma register_short_username_rejected :
  (∀ (B : bcrypt.impl) (Q : mongoose.impl),
     let out := register (sample.env 1000 sample.bob) (sample.str "ab")
                  (sample.str "secret1") sample.db in
     js_not (sample.str "ab") || js_not (sample.str "secret1") = false
     ∧ User.lookup (JsString.trim "ab") (users sample.db) = None
     ∧ out.1 = server_error "Server error"
     ∧ users out.2 = users sample.db)
  ∧ (∀ (B : bcrypt.impl) (Q : mongoose.impl),
       let number := Some (JNum "123456") in
       let out := register (sample.env 1000 sample.bob) (sample.str "carol")
                    number sample.db in
       js_not (sample.str "carol") || js_not number = false
       ∧ User.lookup (JsString.trim "carol") (users sample.db) = None
       ∧ out.1 = server_error "Server error"
       ∧ users out.2 = users sample.db).
Proof. split; intros B Q; cbv zeta; split_and!; by vm_compute. Qed.

(** C4 on the empty store: Alice registers and logs in. *)
Lemma register_then_login_witness :
  ∃ tok su,
    (login (sample.env 5000 0%N) (sample.str "alice") (sample.str "wonderland")
       (register (sample.env 1000 sample.alice) (sample.str "alice")
          (sample.str "wonderland") sample.empty).2).1
    = {| status := 200; body := Session tok su |}
    ∧ jwt.username (jwt.claims tok) = "alice".
Proof.
  destruct (register_then_login (B := bcrypt_reference.impl)
              (Q := mongoose_reference.impl) (sample.env 1000 sample.alice)
              (sample.env 5000 0%N) "alice" "wonderland" sample.empty)
    as (_ & tok & Hlogin & _ & _ & Hname).
  - vm_compute. lia.
  - vm_compute. lia.
  - vm_compute. reflexivity.
  - vm_compute. reflexivity.
  - exists tok. eexists. split; [exact Hlogin|]. apply Hname. reflexivity.
Defined.

(** C4 as stated fails for names with surrounding white space.  The name
    "a    " has 5 characters, but it is stored trimmed and "a" is too short:
    the registration is answered 500.  The name " bob " registers and logs
    in, but the token names "bob". *)
Lemma register_padded_username :
  let e := sample.env 1000 sample.bob in
  ((3 ≤ String.length "a    ")%nat ∧ (6 ≤ String.length "secret1")%nat
   ∧ User.lookup "a    " (users sample.db) = None
   ∧ (register e (sample.str "a    ") (sample.str "secret1") sample.db).1
     = server_error "Server error")
  ∧ (∃ tok su,
       (register e (sample.str " bob ") (sample.str "secret1") sample.db).1
       = {| status := 201; body := Message "User registered successfully" |}
       ∧ (login e (sample.str " bob ") (sample.str "secret1")
            (register e (sample.str " bob ") (sample.str "secret1")
               sample.db).2).1
         = {| status := 200; body := Session tok su |}
       ∧ jwt.username (jwt.claims tok) = "bob"
       ∧ jwt.username (jwt.claims tok) ≠ " bob ").
Proof.
  cbv zeta. split.
  - split_and!; [vm_compute; lia | vm_compute; lia | by vm_compute..].
  - do 2 eexists. split_and!; [by vm_compute | by vm_compute | done | done].
Qed.

(** C5 on the sample store: Alice logs in. *)
Lemma login_success_shape_witness :
  ∃ i d tok su,
    User.lookup "alice" (users sample.db) = Some (i, d)
    ∧ (login (sample.env 5000 0%N) (sample.str "alice")
         (sample.str "wonderland") sample.db).1
      = {| status := 200; body := Session tok su |}
    ∧ su_id su = i ∧ su_username su = "alice"
    ∧ jwt.exp (jwt.claims tok) = jwt.iat (jwt.claims tok) + 3600.
Proof.
  destruct (login_success_shape (B := bcrypt_reference.impl)
              (Q := mongoose_reference.impl) (sample.env 5000 0%N)
              (sample.str "alice") (sample.str "wonderland") sample.db)
    as (i & d & p & tok & Hquery & _ & Hname & _ & _ & _ & Hanswer & _ & _
        & _ & _ & Hexp & _).
  - vm_compute. reflexivity.
  - exists i, d, tok. eexists. split_and!; [|exact Hanswer|done| |exact Hexp].
    + exact (f_equal (from_option id None) Hquery).
    + cbn. by rewrite (Hname "alice").
Defined.

(** The hexadecimal form of an identifier has 24 characters. *)
Lemma length_toHexString i : String.length (toHexString i) = 24%nat.
Proof. unfold toHexString. by rewrite length_digits. Qed.

(** C6 on the sample store: Alice retitles her first note. *)
Lemma updateNote_dual_filter_witness :
  (updateNote (sample.env 9000 0%N) sample.alice
     (toHexString sample.first_id) (sample.str "uno") None sample.db).1
  = {| status := 200;
       body := NoteBody (sample.first_id,
                         noteSchema.mk (Some "uno") (Some "one") sample.alice
                           2000 9000) |}.
Proof.
  refine (proj1 (proj1 (updateNote_dual_filter (Q := mongoose_reference.impl)
                          (sample.env 9000 0%N)
                          sample.alice (toHexString sample.first_id)
                          (sample.str "uno") None sample.db)
                   sample.first_id sample.first (Assigned (Some "uno"))
                   Untouched _ _ _ _ _)).
  - vm_compute. reflexivity.
  - vm_compute. reflexivity.
  - vm_compute. reflexivity.
  - reflexivity.
  - reflexivity.
Defined.

(** C6 as stated fails for a URL segment that is not an identifier: no note
    matches it, yet the answer is 500, not 404.  It fails in the same way
    for a title that is an array, whatever the segment: here with the
    identifier of a note that is not stored. *)
Lemma updateNote_malformed_id :
  (let out := updateNote (sample.env 9000 0%N) sample.alice "not-an-id"
                (sample.str "t") (sample.str "c") sample.db in
   (∀ i d, notes sample.db !! i = Some d → toHexString i ≠ "not-an-id")
   ∧ out.1 = server_error "Internal server error"
   ∧ out.1 ≠ not_found "Note not found"
   ∧ same_db sample.db out.2)
  ∧ (∀ Q : mongoose.impl,
       let out := updateNote (sample.env 9000 0%N) sample.alice
                    (toHexString 99%N) (Some (JArr [])) (sample.str "c")
                    sample.db in
       notes sample.db !! 99%N = None
       ∧ out.1 = server_error "Internal server error"
       ∧ out.1 ≠ not_found "Note not found"
       ∧ same_db sample.db out.2).
Proof.
  split.
  - cbv zeta. split_and!.
    + intros i d _ Heq. apply (f_equal String.length) in Heq.
      rewrite length_toHexString in Heq. discriminate.
    + by vm_compute.
    + by vm_compute.
    + by vm_compute.
  - intros Q. cbv zeta. split_and!; by vm_compute.
Qed.

(** C7 on the sample store: Alice deletes her first note. *)
Lemma deleteNote_dual_filter_witness :
  let out := deleteNote sample.alice (toHexString sample.first_id) sample.db in
  out.1 = {| status := 200; body := Message "Note deleted successfully!" |}
  ∧ notes out.2 !! sample.first_id = None
  ∧ notes out.2 !! sample.second_id = Some sample.second.
Proof.
  cbv zeta.
  destruct (proj1 (deleteNote_dual_filter sample.alice
                     (toHexString sample.first_id) sample.db)
              sample.first_id sample.first)
    as (Hanswer & _ & _ & Hgone & Hkept & _).
  - vm_compute. reflexivity.
  - vm_compute. reflexivity.
  - vm_compute. reflexivity.
  - split_and!; [exact Hanswer | exact Hgone |].
    rewrite Hkept by discriminate. vm_compute. reflexivity.
Defined.

(** C7 as stated fails for a URL segment that is not an identifier: no note
    matches it, yet the answer is 500, not 404. *)
Lemma deleteNote_malformed_id :
  let out := deleteNote sample.alice "not-an-id" sample.db in
  (∀ i d, notes sample.db !! i = Some d → toHexString i ≠ "not-an-id")
  ∧ out.1 = server_error "Internal server error"
  ∧ out.1 ≠ not_found "Note not found"
  ∧ same_db sample.db out.2.
Proof.
  cbv zeta. split_and!.
  - intros i d _ Heq. apply (f_equal String.length) in Heq.
    rewrite length_toHexString in Heq. discriminate.
  - by vm_compute.
  - by vm_compute.
  - by vm_compute.
Qed.

(** C8 on the sample store: Alice creates a third note and reads it back. *)
Lemma createNote_then_getNoteById_witness :
  let created := createNote (sample.env 4000 18%N) sample.alice
                   (sample.str "third") (sample.str "three") sample.db in
  let note : lean :=
    (18%N, noteSchema.mk (Some "third") (Some "three") sample.alice
             4000 4000) in
  created.1 = {| status := 201; body := NoteBody note |}
  ∧ (getNoteById sample.alice (toHexString 18%N) created.2).1
    = {| status := 200; body := NoteBody note |}.
Proof.
  cbv zeta.
  destruct (createNote_then_getNoteById (Q := mongoose_reference.impl)
              (sample.env 4000 18%N) sample.alice
              (sample.str "third") (sample.str "three") "third" "three"
              sample.db)
    as (Hcreated & _ & _ & Hread).
  - reflexivity.
  - reflexivity.
  - discriminate.
  - discriminate.
  - vm_compute. reflexivity.
  - vm_compute. reflexivity.
  - split; [exact Hcreated | exact Hread].
Defined.

(** C8 as stated fails for an empty content, and for an empty title: the
    schema's [required] rejects the save, the answer is 500 and no note is
    stored. *)
Lemma createNote_empty_content_rejected :
  (∀ Q : mongoose.impl,
     let out := createNote (sample.env 4000 18%N) sample.alice
                  (sample.str "third") (sample.str "") sample.db in
     out.1 = server_error "Internal server error"
     ∧ notes out.2 = notes sample.db
     ∧ notes out.2 !! 18%N = None)
  ∧ (∀ Q : mongoose.impl,
       let out := createNote (sample.env 4000 18%N) sample.alice
                    (sample.str "") (sample.str "three") sample.db in
       out.1 = server_error "Internal server error"
       ∧ notes out.2 = notes sample.db
       ∧ notes out.2 !! 18%N = None).
Proof. split; intros Q; cbv zeta; split_and!; by vm_compute. Qed.

(** C9 on the sample store: Bob owns nothing and gets the empty list. *)
Lemma getAllNotes_owned_newest_first_witness :
  (getAllNotes sample.bob sample.db).1
  = {| status := 200; body := NotesBody [] |}.
Proof.
  destruct (getAllNotes_owned_newest_first sample.bob sample.db)
    as (l & -> & _ & _ & _ & Hempty).
  rewrite Hempty; [reflexivity|].
  apply (bool_decide_unpack
           (map_Forall (λ _ d, noteSchema.user d ≠ sample.bob)
              (notes sample.db))).
  vm_compute. exact I.
Defined.

(** C10 on the sample store: Alice sends a body with a content only. *)
Lemma updateNote_frame_witness :
  status (updateNote (sample.env 9000 0%N) sample.alice
            (toHexString sample.first_id) None (sample.str "uno") sample.db).1
  = 200
  ∧ ∃ d',
      notes (updateNote (sample.env 9000 0%N) sample.alice
               (toHexString sample.first_id) None (sample.str "uno")
               sample.db).2
        !! sample.first_id = Some d'
      ∧ noteSchema.title d' = noteSchema.title sample.first.
Proof.
  destruct (proj1 (proj2 (updateNote_frame (Q := mongoose_reference.impl)
                            (sample.env 9000 0%N) sample.alice
                            (toHexString sample.first_id) None
                            (sample.str "uno") sample.db))
              sample.first_id sample.first)
    as (Hstatus & d' & Hd' & Htitle & _).
  - vm_compute. reflexivity.
  - vm_compute. reflexivity.
  - vm_compute. reflexivity.
  - eexists. reflexivity.
  - eexists. reflexivity.
  - split; [exact Hstatus|]. exists d'. split; [exact Hd'|]. by apply Htitle.
Defined.

(** * Further properties of the handlers *)

(** ** Login *)

(** X1.  A login request in which the username or the password is missing or
    falsy is answered 400 "Username and password are required" before
    anything is awaited: the world, trace included, is the one it started
    in. *)
Theorem login_requires_both_fields `{B : bcrypt.impl} `{Q : mongoose.impl}
    env username password w :
  js_not username || js_not password = true →
  login env username password w
  = (bad_request "Username and password are required", w).
Proof. intros Hmissing. by rewrite login_run, Hmissing. Qed.

(** X2.  [login] answers 200 exactly when the username is truthy, the
    password is a non-empty string, the query for the username finds a
    stored user (for a username that is a string: the first user with that
    name, trimmed) and the password verifies against that user's stored
    hash.  It answers 500 exactly when both fields are truthy and either the
    query is refused, or it finds a user and the password is not a string.
    In every other case it answers 400. *)
Theorem login_succeeds_iff `{B : bcrypt.impl} `{Q : mongoose.impl}
    env username password w :
  let answer := (login env username password w).1 in
  (status answer = 200 ↔
     js_not username = false
     ∧ ∃ p i d,
         password = Some (JStr p) ∧ p ≠ ""
         ∧ User.query username (users w) = Some (Some (i, d))
         ∧ bcrypt.compareSync p (userSchema.password d) = true)
  ∧ (status answer = 500 ↔
       js_not username || js_not password = false
       ∧ (User.query username (users w) = None
          ∨ (∃ e, User.query username (users w) = Some (Some e))
            ∧ js_string password = None))
  ∧ (status answer = 200 ∨ status answer = 400 ∨ status answer = 500)
  ∧ (∀ u, username = Some (JStr u) →
       User.query username (users w)
       = Some (User.lookup (JsString.trim u) (users w))).
Proof.
  cbv zeta. rewrite login_run. split_and!; [..|by intros u ->].
  - destruct (js_not username) eqn:Hu; cbn [orb].
    { split; [done|]. by intros [? _]. }
    destruct (js_not password) eqn:Hp.
    { split; [done|]. intros (_ & p & i & d & -> & Hne & _).
      by rewrite js_not_str in Hp. }
    destruct (User.query _ _) as [[[i d]|]|] eqn:Hfound; cbn.
    + destruct password as [[| | |p| |]|]; cbn;
        try (split; [done|]; by intros (_ & ? & ? & ? & ? & _)).
      destruct (bcrypt.compareSync _ _) eqn:Hmatch; cbn.
      * split; [|done]. intros _. split; [done|]. exists p, i, d.
        split_and!; try done. intros ->. done.
      * split; [done|]. intros (_ & ? & ? & ? & [= <-] & _ & [= <- <-] & ?).
        congruence.
    + split; [done|]. by intros (_ & ? & ? & ? & _ & _ & ? & _).
    + split; [done|]. by intros (_ & ? & ? & ? & _ & _ & ? & _).
  - destruct (js_not username || js_not password) eqn:Hfields.
    { split; [done|]. by intros [? _]. }
    destruct (User.query _ _) as [[[i d]|]|] eqn:Hfound; cbn.
    + destruct (js_string password) as [p|] eqn:Hp; cbn.
      * destruct (bcrypt.compareSync _ _); cbn;
          (split; [done|]; by intros (_ & [?|[_ ?]])).
      * split; [|done]. intros _. split; [done|]. right. split; [|done].
        by eexists.
    + split; [done|]. by intros (_ & [?|[[? ?] _]]).
    + split; [|done]. intros _. split; [done|]. by left.
  - destruct (js_not username || js_not password); [auto|].
    destruct (User.query _ _) as [[[i d]|]|]; [|auto..].
    destruct (js_string password); [|auto].
    destruct (bcrypt.compareSync _ _); auto.
Qed.

(** ** The body of a request *)

(** X24.  The four handlers that read a body do so from whatever [req.body]
    holds.  When it is [undefined] the destructuring throws inside the [try]
    block and the answer is the handler's 500, nothing else having
    happened.  When it is an object the handler is answered from the two
    members it asks for, the later one of two members with the same key; an
    array has neither of them.  So an empty object and an array are answered
    400 "Username and password are required" by [register] and [login] and
    500 by [createNote], and nothing is stored. *)
Theorem handlers_from_req_body `{B : bcrypt.impl} `{Q : mongoose.impl}
    env uid id w :
  (register_req env None w
   = (server_error "Server error",
      log [EvConsoleError "Registration error:"] w)
   ∧ login_req env None w
     = (server_error "Server error", log [EvConsoleError "Login error:"] w)
   ∧ createNote_req env uid None w
     = (server_error "Internal server error",
        log [EvConsoleError "Error in createNote controller:"] w)
   ∧ updateNote_req env uid id None w
     = (server_error "Internal server error",
        log [EvConsoleError "Error in updateNote controller:"] w))
  ∧ (∀ members,
       let member key := js_member key members in
       register_req env (Some (JObj members)) w
       = register env (member "username") (member "password") w
       ∧ login_req env (Some (JObj members)) w
         = login env (member "username") (member "password") w
       ∧ createNote_req env uid (Some (JObj members)) w
         = createNote env uid (member "title") (member "content") w
       ∧ updateNote_req env uid id (Some (JObj members)) w
         = updateNote env uid id (member "title") (member "content") w)
  ∧ (∀ items,
       register_req env (Some (JArr items)) w = register env None None w
       ∧ login_req env (Some (JArr items)) w = login env None None w
       ∧ createNote_req env uid (Some (JArr items)) w
         = createNote env uid None None w
       ∧ updateNote_req env uid id (Some (JArr items)) w
         = updateNote env uid id None None w)
  ∧ (∀ v, v = JObj [] ∨ (∃ items, v = JArr items) →
       register_req env (Some v) w
       = (bad_request "Username and password are required", w)
       ∧ login_req env (Some v) w
         = (bad_request "Username and password are required", w)
       ∧ (createNote_req env uid (Some v) w).1
         = server_error "Internal server error"
       ∧ same_db w (createNote_req env uid (Some v) w).2).
Proof.
  split_and!; try done.
  intros v [-> |[items ->]]; split_and!; done.
Qed.

(** ** What the handlers leave alone *)

(** X3.  The three reading handlers, [login], [getAllNotes] and
    [getNoteById], never change a stored document, whatever they are
    called with and whatever they answer. *)
Theorem read_handlers_change_nothing `{B : bcrypt.impl} `{Q : mongoose.impl}
    env username password uid id w :
  same_db w (login env username password w).2
  ∧ same_db w (getAllNotes uid w).2
  ∧ same_db w (getNoteById uid id w).2.
Proof.
  rewrite login_run, getAllNotes_run, getNoteById_run. split_and!.
  - destruct (js_not username || js_not password); [done|].
    destruct (User.query _ _) as [[[i d]|]|]; [|done..].
    destruct (js_string password); [|done].
    by destruct (bcrypt.compareSync _ _).
  - done.
  - destruct (castObjectId id) as [i|]; [|done].
    by destruct (Note.select i uid (notes w)).
Qed.

(** Splits a goal about one call of [register] into the paths through the
    handler. *)
Ltac register_cases :=
  rewrite register_run; cbv zeta;
  destruct (js_not _ || js_not _);
    [|destruct (User.query _ _) as [[?|]|];
       [|destruct (js_string _);
          [destruct (userSchema.username_cast _) as [[?|]|];
             [destruct (userSchema.validate _); cbn [negb];
                [case_decide; [|case_decide]|]|..]|]|]].

(** Splits a goal about one call of [updateNote] or [deleteNote]. *)
Ltac write_cases id title content :=
  destruct (castObjectId id) as [?i|];
    [destruct (SchemaString.castUpdate title) as [?t|];
       [destruct (SchemaString.castUpdate content) as [?c|]|]|].

(** X4.  Each controller writes its own collection only: [register] never
    changes a note, and [createNote], [updateNote] and [deleteNote] never
    change a user. *)
Theorem controllers_write_their_own_collection `{B : bcrypt.impl}
    `{Q : mongoose.impl} env username password uid id title content w :
  notes (register env username password w).2 = notes w
  ∧ users (createNote env uid title content w).2 = users w
  ∧ users (updateNote env uid id title content w).2 = users w
  ∧ users (deleteNote uid id w).2 = users w.
Proof.
  rewrite createNote_run, updateNote_run, deleteNote_run.
  split_and!.
  - register_cases; done.
  - destruct (negb _); [done|]. by case_decide.
  - write_cases id title content; try done.
    by destruct (Note.select _ uid (notes w)) as [[j d]|].
  - destruct (castObjectId id) as [i|]; [|done].
    by destruct (Note.select i uid (notes w)) as [[j d]|].
Qed.

(** X5.  No call made in the name of one user changes a note of another
    user: whatever [createNote], [updateNote] and [deleteNote] are called
    with under identity [uid], a note whose owner is not [uid] is stored
    afterwards exactly as before. *)
Theorem other_owners_notes_untouched `{Q : mongoose.impl}
    env uid id title content w i d :
  notes w !! i = Some d → noteSchema.user d ≠ uid →
  notes (createNote env uid title content w).2 !! i = Some d
  ∧ notes (updateNote env uid id title content w).2 !! i = Some d
  ∧ notes (deleteNote uid id w).2 !! i = Some d.
Proof.
  intros Hd Hu.
  rewrite createNote_run, updateNote_run, deleteNote_run. split_and!.
  - destruct (negb _); [done|]. case_decide as Hfresh; [done|].
    cbn [snd notes]. rewrite lookup_insert_ne; [done|].
    intros Heq. apply Hfresh. rewrite Heq. by eexists.
  - write_cases id title content; try done.
    destruct (Note.select _ uid (notes w)) as [[j e]|] eqn:Hsel; [|done].
    apply select_inv in Hsel as (Hj & He & Hown). simpl in Hj, He, Hown.
    subst j. cbn [snd notes]. rewrite lookup_insert_ne; [done|].
    intros ->. congruence.
  - destruct (castObjectId id) as [k|]; [|done].
    destruct (Note.select k uid (notes w)) as [[j e]|] eqn:Hsel; [|done].
    apply select_inv in Hsel as (Hj & He & Hown). simpl in Hj, He, Hown.
    subst j. cbn [snd notes]. rewrite lookup_delete_ne; [done|].
    intros ->. congruence.
Qed.

(** X6.  No handler moves a note to another owner or changes when it was
    created: a note stored under an identifier before and after a call of
    [createNote], [updateNote] or [deleteNote] has the same owner and the
    same [createdAt]. *)
Theorem owner_and_createdAt_never_change `{Q : mongoose.impl}
    env uid id title content w out i d d' :
  out = createNote env uid title content w
  ∨ out = updateNote env uid id title content w
  ∨ out = deleteNote uid id w →
  notes w !! i = Some d → notes out.2 !! i = Some d' →
  noteSchema.user d' = noteSchema.user d
  ∧ noteSchema.createdAt d' = noteSchema.createdAt d.
Proof.
  intros Hout Hd.
  assert (Hsame : notes out.2 = notes w →
            notes out.2 !! i = Some d' →
            noteSchema.user d' = noteSchema.user d
            ∧ noteSchema.createdAt d' = noteSchema.createdAt d).
  { intros ->. rewrite Hd. by intros [= <-]. }
  destruct Hout as [->|[->| ->]].
  - rewrite createNote_run in *. destruct (negb _); [by apply Hsame|].
    case_decide as Hfresh; [by apply Hsame|]. cbn [snd notes].
    rewrite lookup_insert_ne; [rewrite Hd; by intros [= <-]|].
    intros Heq. apply Hfresh. rewrite Heq. by eexists.
  - rewrite updateNote_run in *.
    write_cases id title content; try by apply Hsame.
    destruct (Note.select _ uid (notes w)) as [[j e]|] eqn:Hsel;
      [|by apply Hsame].
    apply select_inv in Hsel as (Hj & He & Hown). simpl in Hj, He, Hown.
    subst j. cbn [snd notes]. rewrite lookup_insert. case_decide as Hk.
    + subst i. intros [= <-]. rewrite He in Hd. by injection Hd as ->.
    + rewrite Hd. by intros [= <-].
  - rewrite deleteNote_run in *.
    destruct (castObjectId id) as [k|]; [|by apply Hsame].
    destruct (Note.select k uid (notes w)) as [[j e]|] eqn:Hsel;
      [|by apply Hsame].
    cbn [snd notes]. rewrite lookup_delete. case_decide; [done|].
    rewrite Hd. by intros [= <-].
Qed.

(** ** Reading one note *)

(** X7.  [getNoteById] answers 200 with the stored record exactly when the
    URL segment denotes an identifier under which a note of the caller is
    stored; it answers 404 "Note not found!" when the identifier holds no
    note of the caller, and 500 when the segment is not an identifier. *)
Theorem getNoteById_outcomes uid id w :
  let answer := (getNoteById uid id w).1 in
  (∀ i d, castObjectId id = Some i → notes w !! i = Some d →
     noteSchema.user d = uid →
     answer = {| status := 200; body := NoteBody (i, d) |})
  ∧ (status answer = 200 →
       ∃ i d, castObjectId id = Some i ∧ notes w !! i = Some d
         ∧ noteSchema.user d = uid)
  ∧ (∀ i, castObjectId id = Some i → Note.select i uid (notes w) = None →
       answer = not_found "Note not found!")
  ∧ (castObjectId id = None → answer = server_error "Internal server error").
Proof.
  cbv zeta. rewrite getNoteById_run. split_and!.
  - intros i d -> Hd Hu. by rewrite (select_Some _ _ _ _ Hd Hu).
  - destruct (castObjectId id) as [i|]; [|done].
    destruct (Note.select i uid (notes w)) as [[j d]|] eqn:Hsel; [|done].
    apply select_inv in Hsel as (Hj & Hd & Hu). simpl in Hj, Hd, Hu. subst j.
    intros _. by exists i, d.
  - by intros i -> ->.
  - by intros ->.
Qed.

(** ** Creating a note *)

(** X8.  [createNote] stores nothing when the title or the content is
    missing, [null], the empty string or an array: the schema's [required]
    check fails on the first three and an array does not cast to a string;
    the answer is 500 "Internal server error" and every document is as
    before. *)
Theorem createNote_rejects_missing_fields `{Q : mongoose.impl}
    env uid title content w v :
  v = title ∨ v = content →
  v = None ∨ v = Some JNull ∨ v = Some (JStr "")
  ∨ (∃ items, v = Some (JArr items)) →
  (createNote env uid title content w).1
  = server_error "Internal server error"
  ∧ same_db w (createNote env uid title content w).2.
Proof.
  intros Hwhich Hv. rewrite createNote_run.
  assert (noteSchema.path_valid (SchemaString.cast v) = false) as Hinvalid.
  { by destruct Hv as [-> |[-> |[-> |[items ->]]]]. }
  destruct Hwhich as [-> | ->]; rewrite Hinvalid, ?andb_false_r; cbn;
    auto with notes.
Qed.

(** ** Writing, then reading *)

(** X9.  After an update that went through, [getNoteById] by the same user
    with the same URL segment returns the record that [updateNote]
    returned. *)
Theorem updateNote_then_getNoteById `{Q : mongoose.impl}
    env uid id title content w :
  status (updateNote env uid id title content w).1 = 200 →
  (getNoteById uid id (updateNote env uid id title content w).2).1
  = (updateNote env uid id title content w).1.
Proof.
  rewrite updateNote_run.
  destruct (castObjectId id) as [i|] eqn:Hid; [|done].
  destruct (SchemaString.castUpdate title) as [t|]; [|done].
  destruct (SchemaString.castUpdate content) as [c|]; [|done].
  destruct (Note.select i uid (notes w)) as [[j d]|] eqn:Hsel; [|done].
  apply select_inv in Hsel as (Hj & Hd & Hu). simpl in Hj, Hd, Hu. subst j.
  intros _. cbn [fst snd]. rewrite getNoteById_run, Hid. cbn [notes].
  erewrite select_Some; [done|apply lookup_insert_eq|done].
Qed.

(** X14.  A deleted note is gone for every later operation: after a delete
    that went through, [deleteNote] by the same user with the same URL
    segment answers 404 "Note not found", and so does [updateNote] whenever
    the title and the content of its body cast (it answers 500 when they do
    not); none of them changes anything. *)
Theorem deleted_note_is_gone `{Q : mongoose.impl} env uid id title content w :
  status (deleteNote uid id w).1 = 200 →
  let w' := (deleteNote uid id w).2 in
  (is_Some (SchemaString.castUpdate title) →
   is_Some (SchemaString.castUpdate content) →
   (updateNote env uid id title content w').1 = not_found "Note not found")
  ∧ (SchemaString.castUpdate title = None
     ∨ SchemaString.castUpdate content = None →
     (updateNote env uid id title content w').1
     = server_error "Internal server error")
  ∧ same_db w' (updateNote env uid id title content w').2
  ∧ (deleteNote uid id w').1 = not_found "Note not found"
  ∧ same_db w' (deleteNote uid id w').2.
Proof.
  rewrite deleteNote_run.
  destruct (castObjectId id) as [i|] eqn:Hid; [|done].
  destruct (Note.select i uid (notes w)) as [[j d]|] eqn:Hsel; [|done].
  apply select_inv in Hsel as (Hj & _). simpl in Hj. subst j.
  intros _. cbv zeta. cbn [snd].
  rewrite updateNote_run, deleteNote_run, Hid. cbn [notes].
  rewrite select_absent by apply lookup_delete_eq. cbn.
  split_and!; auto with notes.
  - by intros [t ->] [c ->].
  - intros [-> | ->]; [done|]. by destruct (SchemaString.castUpdate title).
  - by destruct (SchemaString.castUpdate title),
      (SchemaString.castUpdate content).
Qed.

(** ** The list after a write *)

Section listing.
Implicit Types (w : World) (uid : ObjectId).

(** The answer of [getAllNotes] is read off the caller's own notes. *)
Lemma getAllNotes_own_notes uid w :
  (getAllNotes uid w).1
  = {| status := 200;
       body := NotesBody (merge_sort Note.newest_first
                            (map_to_list (own_notes uid w))) |}.
Proof. by rewrite getAllNotes_run. Qed.

Lemma elem_of_listing uid w i d :
  (i, d) ∈ merge_sort Note.newest_first (map_to_list (own_notes uid w))
  ↔ notes w !! i = Some d ∧ noteSchema.user d = uid.
Proof.
  rewrite merge_sort_Permutation, elem_of_map_to_list.
  unfold own_notes. by rewrite map_lookup_filter_Some.
Qed.

(** The filter [{ _id, user }] looks at the caller's own notes only. *)
Lemma select_own_notes i uid w :
  Note.select i uid (notes w) = (λ d, (i, d)) <$> own_notes uid w !! i.
Proof.
  unfold Note.select, own_notes.
  rewrite (map_lookup_filter (Note.owned_by uid) (notes w) i).
  destruct (notes w !! i) as [d|]; [|done]. cbn.
  unfold Note.owned_by. cbn. case_decide.
  - by rewrite option_guard_True.
  - by rewrite option_guard_False.
Qed.
End listing.

(** X10.  After a create that went through, the owner's list holds the new
    note together with exactly the notes it held before, and the list of
    every other user is answered as before. *)
Theorem createNote_then_getAllNotes `{Q : mongoose.impl}
    env uid title content w :
  status (createNote env uid title content w).1 = 201 →
  let created := createNote env uid title content w in
  ∃ l,
    (getAllNotes uid created.2).1 = {| status := 200; body := NotesBody l |}
    ∧ (∀ i d, (i, d) ∈ l ↔
         body created.1 = NoteBody (i, d)
         ∨ (notes w !! i = Some d ∧ noteSchema.user d = uid))
    ∧ (∀ v, v ≠ uid → (getAllNotes v created.2).1 = (getAllNotes v w).1).
Proof.
  rewrite createNote_run. destruct (negb _); [done|].
  case_decide as Hfresh; [done|]. intros _. cbv zeta. cbn [fst snd body].
  apply eq_None_not_Some in Hfresh.
  eexists. split; [apply getAllNotes_own_notes|]. split.
  - intros i d. rewrite elem_of_listing. cbn [notes].
    rewrite lookup_insert. case_decide as Hi.
    + subst i. split.
      * intros [[= <-] _]. by left.
      * intros [[= <-]|[Hd _]]; [done|congruence].
    + split; [by right|]. intros [[= ? _]|?]; [congruence|done].
  - intros v Hv. rewrite !getAllNotes_own_notes. do 3 f_equal.
    unfold own_notes. cbn [notes].
    rewrite (map_filter_insert_False (Note.owned_by v) (notes w))
      by (unfold Note.owned_by; cbn; congruence).
    by rewrite delete_id.
Qed.

(** X11.  After a delete that went through, the owner's list holds exactly
    the notes it held before except the deleted one, and the list of every
    other user is answered as before. *)
Theorem deleteNote_then_getAllNotes uid id w :
  status (deleteNote uid id w).1 = 200 →
  let w' := (deleteNote uid id w).2 in
  ∃ l,
    (getAllNotes uid w').1 = {| status := 200; body := NotesBody l |}
    ∧ (∀ i d, (i, d) ∈ l ↔
         notes w !! i = Some d ∧ noteSchema.user d = uid
         ∧ castObjectId id ≠ Some i)
    ∧ (∀ v, v ≠ uid → (getAllNotes v w').1 = (getAllNotes v w).1).
Proof.
  rewrite deleteNote_run.
  destruct (castObjectId id) as [k|]; [|done].
  destruct (Note.select k uid (notes w)) as [[j e]|] eqn:Hsel; [|done].
  apply select_inv in Hsel as (Hj & He & Hown). simpl in Hj, He, Hown.
  subst j. intros _. cbv zeta. cbn [snd].
  eexists. split; [apply getAllNotes_own_notes|]. split.
  - intros i d. rewrite elem_of_listing. cbn [notes].
    rewrite lookup_delete. case_decide as Hi.
    + subst i. split; [by intros [? _]|]. by intros (_ & _ & ?).
    + split; [intros [? ?]|intros (? & ? & _)]; split_and!; try done.
      congruence.
  - intros v Hv. rewrite !getAllNotes_own_notes. do 3 f_equal.
    unfold own_notes. cbn [notes].
    rewrite (map_filter_delete (Note.owned_by v) (notes w)).
    rewrite delete_id; [done|]. apply map_lookup_filter_None. right.
    intros d Hd. rewrite He in Hd. injection Hd as <-.
    unfold Note.owned_by. cbn. congruence.
Qed.

(** ** What an answer depends on *)

(** X12.  What [getAllNotes], [getNoteById], [updateNote] and [deleteNote]
    answer to a user is decided by that user's own notes.  On two stores
    that hold the same notes of [uid], whatever else they hold (other users,
    notes of other owners, other traces): [getNoteById], [updateNote] and
    [deleteNote] give the same answer, and the notes of [uid] after the
    update and after the delete are again the same; [getAllNotes] answers
    200 on both with lists that hold the same notes, each sorted newest
    first, and that are the same list when no two notes of [uid] were
    created at the same time. *)
Theorem answers_depend_on_own_notes `{Q : mongoose.impl}
    env uid id title content w1 w2 :
  own_notes uid w1 = own_notes uid w2 →
  (∃ l1 l2,
     (getAllNotes uid w1).1 = {| status := 200; body := NotesBody l1 |}
     ∧ (getAllNotes uid w2).1 = {| status := 200; body := NotesBody l2 |}
     ∧ l1 ≡ₚ l2
     ∧ StronglySorted Note.newest_first l1
     ∧ StronglySorted Note.newest_first l2
     ∧ ((∀ i j d e, own_notes uid w1 !! i = Some d →
           own_notes uid w1 !! j = Some e →
           noteSchema.createdAt d = noteSchema.createdAt e → i = j) →
        l1 = l2))
  ∧ (getNoteById uid id w1).1 = (getNoteById uid id w2).1
  ∧ (updateNote env uid id title content w1).1
    = (updateNote env uid id title content w2).1
  ∧ (deleteNote uid id w1).1 = (deleteNote uid id w2).1
  ∧ own_notes uid (updateNote env uid id title content w1).2
    = own_notes uid (updateNote env uid id title content w2).2
  ∧ own_notes uid (deleteNote uid id w1).2
    = own_notes uid (deleteNote uid id w2).2.
Proof.
  intros Hown.
  assert (Hsel : ∀ i, Note.select i uid (notes w1)
                      = Note.select i uid (notes w2)).
  { intros i. by rewrite !select_own_notes, Hown. }
  split.
  { do 2 eexists. rewrite !getAllNotes_own_notes, Hown.
    split_and!; try done; apply StronglySorted_merge_sort; apply _. }
  rewrite !getNoteById_run, !updateNote_run, !deleteNote_run.
  destruct (castObjectId id) as [i|]; [|done]. rewrite Hsel.
  destruct (Note.select i uid (notes w2)) as [[j d]|] eqn:Hd.
  - apply select_inv in Hd as (_ & _ & Hu). cbn [snd] in Hu.
    destruct (SchemaString.castUpdate title) as [t|],
      (SchemaString.castUpdate content) as [c|];
      cbn [fst snd]; split_and!; try done;
      unfold own_notes in *; cbn [notes];
      rewrite ?(map_filter_insert_True (Note.owned_by uid) (notes w1)),
        ?(map_filter_insert_True (Note.owned_by uid) (notes w2)),
        ?(map_filter_delete (Note.owned_by uid) (notes w1)),
        ?(map_filter_delete (Note.owned_by uid) (notes w2)) by done;
      f_equal; exact Hown.
  - by destruct (SchemaString.castUpdate title) as [t|],
      (SchemaString.castUpdate content) as [c|].
Qed.

(** ** What every history keeps *)

Section users_wf.
Context `{B : bcrypt.impl} `{!bcrypt.correct B} `{Q : mongoose.impl}.

Lemma users_wf_same_users w w' : users w' = users w → users_wf w → users_wf w'.
Proof. intros Hu Hwf i d. rewrite Hu. apply Hwf. Qed.

(** A name that comes out of the cast of a username is trimmed. *)
Lemma username_cast_trimmed username name :
  userSchema.username_cast username = Some (Some name) →
  JsString.trim name = name.
Proof.
  unfold userSchema.username_cast.
  destruct (SchemaString.cast username) as [[s|]|]; try done.
  intros [= <-]. apply trim_idemp.
Qed.

Lemma register_keeps_users_wf env username password w :
  users_wf w → users_wf (register env username password w).2.
Proof.
  intros Hwf. rewrite register_run.
  destruct (js_not username || js_not password); [done|]. cbv zeta.
  destruct (User.query _ _) as [[?|]|]; [done| |done].
  destruct (js_string password) as [p|]; [|done].
  destruct (userSchema.username_cast username) as [[name|]|] eqn:Hcast;
    [|done..].
  destruct (userSchema.validate _) eqn:Hvalid; cbn [negb]; [|done].
  rewrite validate_user in Hvalid. apply bool_decide_eq_true in Hvalid.
  case_decide as Hfresh; [done|]. apply eq_None_not_Some in Hfresh.
  case_decide as Hnone; [done|]. apply eq_None_not_Some in Hnone.
  intros i d. cbn [snd users]. rewrite lookup_insert. case_decide as Hi.
  - subst i. intros [= <-]. cbn [userSchema.username userSchema.password].
    split_and!; [by eapply username_cast_trimmed | done
                 | apply bcrypt.hash_length |].
    intros j e. rewrite lookup_insert. case_decide; [done|].
    intros He Hname. by destruct (lookup_user_None _ _ _ _ Hnone He).
  - intros Hd. destruct (Hwf i d Hd) as (Htrim & Hlen & Hpw & Huniq).
    split_and!; try done.
    intros j e. rewrite lookup_insert. case_decide.
    + intros [= <-]. cbn [userSchema.username]. intros Hname.
      by destruct (lookup_user_None _ _ _ _ Hnone Hd).
    + apply Huniq.
Qed.

(** Every handler but [register] leaves the users as they are. *)
Lemma handle_keeps_users r w :
  (∀ env u p, r ≠ Register env u p) → users (handle r w).2 = users w.
Proof.
  intros Hr. destruct r as [env u p|env u p|uid|uid id|env uid t c
                            |env uid id t c|uid id]; cbn [handle].
  - by destruct (Hr env u p).
  - rewrite login_run. destruct (js_not u || js_not p); [done|].
    destruct (User.query _ _) as [[[i d]|]|]; [|done..].
    destruct (js_string p); [|done]. by destruct (bcrypt.compareSync _ _).
  - by rewrite getAllNotes_run.
  - rewrite getNoteById_run. destruct (castObjectId id) as [i|]; [|done].
    by destruct (Note.select i uid (notes w)).
  - rewrite createNote_run. destruct (negb _); [done|]. by case_decide.
  - rewrite updateNote_run. write_cases id t c; try done.
    by destruct (Note.select _ uid (notes w)) as [[j d]|].
  - rewrite deleteNote_run. destruct (castObjectId id) as [i|]; [|done].
    by destruct (Note.select i uid (notes w)) as [[j d]|].
Qed.

Lemma handle_keeps_users_wf r w : users_wf w → users_wf (handle r w).2.
Proof.
  intros Hwf. destruct r as [env u p| | | | | |] eqn:Hr;
    [by apply register_keeps_users_wf|..];
    (eapply users_wf_same_users; [|done]);
    rewrite <- Hr; by apply handle_keeps_users; subst r.
Qed.
End users_wf.

(** X13.  Whatever requests have been served since the store was empty, in
    whatever order and with whatever bodies, the stored users are well
    formed: every username is trimmed, has at least 3 characters and belongs
    to one user only, and every password field has the 60 characters of a
    bcrypt hash. *)
Theorem served_users_wf `{B : bcrypt.impl} `{!bcrypt.correct B}
    `{Q : mongoose.impl} rs :
  users_wf (serve rs (mkWorld ∅ ∅ [])).
Proof.
  unfold serve. induction rs as [|r rs IH] using rev_ind.
  - intros i d. cbn. by rewrite lookup_empty.
  - rewrite foldl_snoc. by apply handle_keeps_users_wf.
Qed.

(** ** Once registered *)

Section registered.
Context `{B : bcrypt.impl} `{!bcrypt.correct B} `{Q : mongoose.impl}.

(** In a well-formed store, the user a lookup finds is still the one it
    finds after any one request. *)
Lemma handle_keeps_lookup r w q i d :
  users_wf w → User.lookup q (users w) = Some (i, d) →
  User.lookup q (users (handle r w).2) = Some (i, d).
Proof.
  intros Hwf Hfound.
  destruct r as [env u p| | | | | |] eqn:Hr;
    [|rewrite <- Hr, handle_keeps_users; [done|by subst r]..].
  cbn [handle]. rewrite register_run.
  destruct (js_not u || js_not p); [done|]. cbv zeta.
  destruct (User.query _ _) as [[?|]|]; [done| |done].
  destruct (js_string p) as [pw|]; [|done].
  destruct (userSchema.username_cast u) as [[name|]|]; [|done..].
  destruct (userSchema.validate _); cbn [negb]; [|done].
  case_decide as Hfresh; [done|]. apply eq_None_not_Some in Hfresh.
  case_decide as Hnone; [done|]. apply eq_None_not_Some in Hnone.
  cbn [snd users].
  apply lookup_user_Some in Hfound as [Hd Hq].
  destruct (Hwf i d Hd) as (_ & _ & _ & Huniq).
  destruct (lookup_user_is_Some q
              (<[new_ObjectId env :=
                   userSchema.mk name
                     (bcrypt.hashSync pw (random_salt env))
                     (Date_now env) (Date_now env)]> (users w)) i d)
    as [[j e] Hje]; [|done|].
  { rewrite lookup_insert_ne; [done|]. intros Heq. congruence. }
  rewrite Hje. apply lookup_user_Some in Hje as [He Hname].
  rewrite lookup_insert in He. case_decide.
  - injection He as <-. cbn in Hname. subst q.
    by destruct (lookup_user_None _ _ _ _ Hnone Hd).
  - assert (j = i) as -> by (apply (Huniq j e); congruence). congruence.
Qed.

Lemma serve_keeps_lookup rs w q i d :
  users_wf w → User.lookup q (users w) = Some (i, d) →
  users_wf (serve rs w) ∧ User.lookup q (users (serve rs w)) = Some (i, d).
Proof.
  intros Hwf Hfound. unfold serve.
  induction rs as [|r rs [IHwf IH]] using rev_ind; [done|].
  rewrite foldl_snoc. split.
  - by apply handle_keeps_users_wf.
  - by apply handle_keeps_lookup.
Qed.
End registered.

(** X15.  A registration is for good: once [register] has answered 201 to a
    username and a password that are strings, on a well-formed store,
    [login] with the same username and password keeps answering 200, with a
    token for the registered user, after any further requests whatsoever. *)
Theorem registered_user_can_always_log_in `{B : bcrypt.impl}
    `{!bcrypt.correct B} `{Q : mongoose.impl} env env' u p rs w :
  users_wf w →
  status (register env (Some (JStr u)) (Some (JStr p)) w).1 = 201 →
  let later :=
    serve rs (register env (Some (JStr u)) (Some (JStr p)) w).2 in
  ∃ tok,
    (login env' (Some (JStr u)) (Some (JStr p)) later).1
    = {| status := 200;
         body := Session tok {| su_id := new_ObjectId env;
                                su_username := JsString.trim u |} |}
    ∧ jwt.id (jwt.claims tok) = new_ObjectId env
    ∧ jwt.username (jwt.claims tok) = JsString.trim u.
Proof.
  intros Hwf Hcreated. cbv zeta.
  pose proof (register_keeps_users_wf env (Some (JStr u)) (Some (JStr p)) w
                Hwf) as Hwf'.
  revert Hcreated Hwf'. rewrite register_run.
  destruct (js_not (Some (JStr u)) || js_not (Some (JStr p))) eqn:Hfields;
    [done|].
  apply orb_false_iff in Hfields as [Hu Hp]. cbv zeta.
  rewrite query_string, username_cast_string. cbn [js_string].
  destruct (User.lookup _ _) eqn:Hnone; [done|].
  destruct (userSchema.validate _); cbn [negb]; [|done].
  case_decide as Hfresh; [done|]. case_decide; [done|].
  intros _ Hwf'. cbn [snd] in *.
  set (d := userSchema.mk (JsString.trim u)
              (bcrypt.hashSync p (random_salt env))
              (Date_now env) (Date_now env)) in *.
  set (w1 := mkWorld _ _ _) in *.
  destruct (serve_keeps_lookup rs w1 (JsString.trim u) (new_ObjectId env) d)
    as [_ Hlater]; [done| |].
  { subst w1. cbn [users]. by apply lookup_user_insert. }
  eexists. rewrite login_run, Hu, Hp. cbn [orb js_string].
  rewrite query_string, Hlater. subst d.
  cbn [userSchema.password userSchema.username].
  rewrite bcrypt.compare_hash. cbn [fst]. done.
Qed.

(** ** What others do *)

Section others.
Context `{B : bcrypt.impl} `{Q : mongoose.impl}.

(** Removing a note of another owner does not change the notes of [uid]. *)
Lemma own_notes_delete_other uid (ns : gmap ObjectId noteSchema.doc) j e :
  ns !! j = Some e → noteSchema.user e ≠ uid →
  filter (Note.owned_by uid) (delete j ns) = filter (Note.owned_by uid) ns.
Proof.
  intros He Hu. rewrite (map_filter_delete (Note.owned_by uid) ns).
  apply delete_id, map_lookup_filter_None. right. intros d Hd.
  rewrite He in Hd. injection Hd as <-. by unfold Note.owned_by.
Qed.

Lemma handle_keeps_own_notes uid r w :
  actor r ≠ Some uid → own_notes uid (handle r w).2 = own_notes uid w.
Proof.
  intros Hactor. unfold own_notes.
  destruct r as [env u p|env u p|v|v id|env v t c|env v id t c|v id];
    cbn [handle actor] in *.
  - register_cases; done.
  - rewrite login_run. destruct (js_not u || js_not p); [done|].
    destruct (User.query _ _) as [[[i d]|]|]; [|done..].
    destruct (js_string p); [|done]. by destruct (bcrypt.compareSync _ _).
  - by rewrite getAllNotes_run.
  - rewrite getNoteById_run. destruct (castObjectId id) as [i|]; [|done].
    by destruct (Note.select i v (notes w)).
  - rewrite createNote_run. destruct (negb _); [done|].
    case_decide as Hfresh; [done|]. apply eq_None_not_Some in Hfresh.
    cbn [snd notes].
    rewrite (map_filter_insert_False (Note.owned_by uid) (notes w))
      by (unfold Note.owned_by; cbn; congruence).
    by rewrite delete_id.
  - rewrite updateNote_run. write_cases id t c; try done.
    destruct (Note.select _ v (notes w)) as [[j e]|] eqn:Hsel; [|done].
    apply select_inv in Hsel as (Hj & He & Hown). simpl in Hj, He, Hown.
    subst j. cbn [snd notes].
    rewrite (map_filter_insert_False (Note.owned_by uid) (notes w))
      by (unfold Note.owned_by; cbn; congruence).
    apply (own_notes_delete_other uid (notes w) _ e He). congruence.
  - rewrite deleteNote_run. destruct (castObjectId id) as [i|]; [|done].
    destruct (Note.select i v (notes w)) as [[j e]|] eqn:Hsel; [|done].
    apply select_inv in Hsel as (Hj & He & Hown). simpl in Hj, He, Hown.
    subst j. cbn [snd notes].
    apply (own_notes_delete_other uid (notes w) i e He). congruence.
Qed.
End others.

(** X16.  What a user holds is out of reach of everyone else: after any
    sequence of requests none of which is made under identity [uid]
    (registrations, logins, and the notes requests of other users), the
    notes of [uid] are exactly what they were, and so is the list that
    [getAllNotes] answers to [uid]. *)
Theorem others_requests_keep_own_notes `{B : bcrypt.impl}
    `{Q : mongoose.impl} uid rs w :
  Forall (λ r, actor r ≠ Some uid) rs →
  own_notes uid (serve rs w) = own_notes uid w
  ∧ (getAllNotes uid (serve rs w)).1 = (getAllNotes uid w).1.
Proof.
  intros Hrs.
  assert (own_notes uid (serve rs w) = own_notes uid w) as Hown.
  { unfold serve. induction rs as [|r rs IH] using rev_ind; [done|].
    apply Forall_app in Hrs as [Hrs Hr]. apply Forall_inv in Hr.
    rewrite foldl_snoc, handle_keeps_own_notes; [by apply IH|exact Hr]. }
  split; [done|]. by rewrite !getAllNotes_own_notes, Hown.
Qed.

(** * Properties of the browser side *)

Global Instance JSON_reference_correct : JSON.correct JSON_reference.impl.
Proof.
  split; intros v; cbn.
  - unfold JSON_reference.parse, JSON_reference.stringify.
    by rewrite decide_True.
  - done.
Qed.

(** ** The session *)

Section session.
Context {V : Type} `{J : JSON.impl V}.
Implicit Types (st : @AuthContext.state V) (storage : gmap string string).

(** What a page load makes of the storage it finds. *)
Lemma load_page_run storage :
  load_page storage =
  match storage !! "token", storage !! "user" with
  | Some t, Some s =>
      if bool_decide (t = "") || bool_decide (s = "")
      then AuthContext.mkState storage None false
      else match JSON.parse s with
           | Some u => AuthContext.mkState storage (Some u) false
           | None =>
               AuthContext.mkState (delete "user" (delete "token" storage))
                 None false
           end
  | _, _ => AuthContext.mkState storage None false
  end.
Proof.
  unfold load_page, AuthContext.mount, AuthContext.initial. cbn.
  destruct (storage !! "token") as [t|], (storage !! "user") as [s|]; cbn;
    unfold js_not, string_not; try done.
  - destruct (bool_decide (t = "")), (bool_decide (s = "")); cbn; try done.
    by destruct (JSON.parse s).
  - by destruct (bool_decide (t = "")).
Qed.
End session.

(** X17.  A failed login changes nothing in the browser: whatever the
    rejection, the storage, the user and the loading flag are as before,
    [success] is false, and the message is the server's when it sent a
    non-empty one and "Login failed" otherwise; the login page then shows
    that message as an error and does not navigate. *)
Theorem failed_login_changes_nothing {V : Type} `{J : JSON.impl V}
    post username password (st : @AuthContext.state V) code m :
  post "/auth/login" (username, password) = Rejected code m →
  let out := AuthContext.login post username password st in
  let text := if js_not m then "Login failed" else js_str m in
  out.2 = st
  ∧ out.1 = {| AuthContext.success := false;
               AuthContext.message := Some text |}
  ∧ Login_handleSubmit out.1
    = {| shown := ToastError (Some text); went_to := None |}.
Proof. intros Hpost. cbv zeta. unfold AuthContext.login. by rewrite Hpost. Qed.

(** X18.  A session survives a reload: after a login that resolved with a
    non-empty token, a page loaded over the storage that the login left
    finds the same user again, is done loading, and a protected route shows
    its children when that user is truthy.  If the token was empty, the
    reload finds no user. *)
Theorem session_survives_reload {V : Type} `{J : JSON.impl V}
    `{!JSON.correct J} post username password (st : @AuthContext.state V) data :
  post "/auth/login" (username, password) = Resolved data →
  let logged_in := (AuthContext.login post username password st).2 in
  let reloaded : @AuthContext.state V :=
    load_page (AuthContext.localStorage logged_in) in
  AuthContext.user logged_in = Some (AuthContext.session_user data)
  ∧ (AuthContext.token data ≠ "" →
       AuthContext.user reloaded = Some (AuthContext.session_user data)
       ∧ AuthContext.loading reloaded = false
       ∧ (JSON.truthy (AuthContext.session_user data) = true →
            ProtectedRoute reloaded = Children))
  ∧ (AuthContext.token data = "" → AuthContext.user reloaded = None).
Proof.
  intros Hpost. cbv zeta. unfold AuthContext.login. rewrite Hpost.
  cbn [snd AuthContext.user AuthContext.localStorage].
  rewrite load_page_run.
  rewrite lookup_insert_ne, !lookup_insert_eq by done.
  split; [done|]. split.
  - intros Htoken. rewrite (bool_decide_eq_false_2 _ Htoken).
    rewrite (bool_decide_eq_false_2 _ (JSON.stringify_nonempty _)).
    cbn [orb]. rewrite JSON.parse_stringify.
    split_and!; try done. intros Htruthy.
    unfold ProtectedRoute, AuthContext.no_user. cbn. by rewrite Htruthy.
  - intros ->. done.
Qed.

(** X19.  Logging out ends the session for good: [logout] clears the user
    and removes the [token] and [user] entries of the storage, leaving every
    other entry alone; a protected route then redirects to /login, and so
    does a protected route of a page loaded over that storage. *)
Theorem logout_ends_session {V : Type} `{J : JSON.impl V}
    (st : @AuthContext.state V) :
  let out := AuthContext.logout st in
  let reloaded : @AuthContext.state V :=
    load_page (AuthContext.localStorage out) in
  AuthContext.user out = None
  ∧ AuthContext.localStorage out !! "token" = None
  ∧ AuthContext.localStorage out !! "user" = None
  ∧ (∀ k, k ≠ "token" → k ≠ "user" →
       AuthContext.localStorage out !! k = AuthContext.localStorage st !! k)
  ∧ (AuthContext.loading st = false → ProtectedRoute out = NavigateTo "/login")
  ∧ AuthContext.user reloaded = None
  ∧ ProtectedRoute reloaded = NavigateTo "/login".
Proof.
  cbv zeta. unfold AuthContext.logout.
  cbn [AuthContext.user AuthContext.localStorage AuthContext.loading].
  assert (Htoken : delete "user" (delete "token" (AuthContext.localStorage st))
                     !! "token" = None).
  { by rewrite lookup_delete_ne, lookup_delete_eq. }
  split_and!; try done.
  - apply lookup_delete_eq.
  - intros k Ht Hu. by rewrite !lookup_delete_ne.
  - intros Hl. unfold ProtectedRoute. cbn. by rewrite Hl.
  - by rewrite load_page_run, Htoken.
  - by rewrite load_page_run, Htoken.
Qed.

(** Closes the cases of a page load in which the storage holds no complete,
    readable session. *)
Ltac no_session :=
  repeat split; intros;
  repeat match goal with
    | H : ∃ _, _ |- _ => destruct H
    | H : _ ∧ _ |- _ => destruct H
    end;
  simplify_eq; done.

(** X20.  A page load restores a user only from a complete, readable
    session: it ends with the loading flag off; the user it finds is the
    parsed [user] entry when both entries are non-empty and the entry
    parses, and none otherwise; the storage is left as found, except that
    an unreadable [user] entry makes it drop both entries. *)
Theorem load_page_outcomes {V : Type} `{J : JSON.impl V} storage :
  let st : @AuthContext.state V := load_page storage in
  AuthContext.loading st = false
  ∧ (∀ v, AuthContext.user st = Some v ↔
       ∃ t s, storage !! "token" = Some t ∧ t ≠ ""
         ∧ storage !! "user" = Some s ∧ s ≠ "" ∧ JSON.parse s = Some v)
  ∧ ((∃ t s, storage !! "token" = Some t ∧ t ≠ ""
        ∧ storage !! "user" = Some s ∧ s ≠ "" ∧ JSON.parse s = None) →
       AuthContext.localStorage st = delete "user" (delete "token" storage))
  ∧ (¬ (∃ t s, storage !! "token" = Some t ∧ t ≠ ""
          ∧ storage !! "user" = Some s ∧ s ≠ "" ∧ JSON.parse s = None) →
       AuthContext.localStorage st = storage).
Proof.
  cbv zeta. rewrite load_page_run.
  destruct (storage !! "token") as [t|] eqn:Ht,
           (storage !! "user") as [s|] eqn:Hs;
    [|cbn; no_session..].
  destruct (decide (t = "")) as [->|Htn]; [cbn; no_session|].
  destruct (decide (s = "")) as [->|Hsn].
  { rewrite (bool_decide_eq_false_2 _ Htn). cbn. no_session. }
  rewrite (bool_decide_eq_false_2 _ Htn), (bool_decide_eq_false_2 _ Hsn).
  cbn [orb]. destruct (JSON.parse s) as [u|] eqn:Hparse; cbn.
  - split_and!; [done| |no_session|done].
    intros v. split; [|no_session]. intros [= <-]. by exists t, s.
  - split_and!; [done|no_session|done|].
    intros Hnot. destruct Hnot. by exists t, s.
Qed.

(** ** The register page against the handler *)

(** Settles the page's reaction to one answer of the handler. *)
Ltac answered :=
  cbn; first [done | intros _; by eexists | by intros []].

(** X21.  The register page reports what the [register] handler answered,
    when that answer is what axios receives: on 201 it shows the success
    toast and navigates to /login; on any other answer it stays where it is
    and shows the handler's own message as an error ("Username already
    exists" for a taken name).  The provider's state is not changed either
    way. *)
Theorem register_page_shows_the_answer `{B : bcrypt.impl}
    `{Q : mongoose.impl} {V : Type} `{J : JSON.impl V} env u p w post
    (st : @AuthContext.state V) :
  post "/auth/register" (u, p)
  = deliver (register env (Some (JStr u)) (Some (JStr p)) w).1 →
  let answer := (register env (Some (JStr u)) (Some (JStr p)) w).1 in
  let out := AuthContext.register post u p st in
  out.2 = st
  ∧ (status answer = 201 →
       Register_handleSubmit out.1
       = {| shown := ToastSuccess (Some "Registered successfully. Please login.");
            went_to := Some "/login" |})
  ∧ (status answer ≠ 201 →
       ∃ m, body answer = Message m
         ∧ Register_handleSubmit out.1
           = {| shown := ToastError (Some m); went_to := None |})
  ∧ (is_Some (User.lookup (JsString.trim u) (users w)) → u ≠ "" → p ≠ "" →
       Register_handleSubmit out.1
       = {| shown := ToastError (Some "Username already exists");
            went_to := None |}).
Proof.
  intros Hpost. cbv zeta. unfold AuthContext.register. rewrite Hpost.
  split_and!.
  - by destruct (deliver _).
  - register_cases; answered.
  - register_cases; answered.
  - intros [e He] Hu Hp. rewrite register_run, !js_not_str by done.
    cbn [orb]. by rewrite query_string, He.
Qed.

(** ** Deleting from a card *)

(** X22.  [handleDelete] touches nothing without a confirmation: no request
    is made and the list is as before.  With a confirmation, a rejected
    request leaves the list as before and shows "Failed to delete note"; a
    request that resolved removes from the list exactly the notes with that
    identifier, the others staying in their order, and doing the same again
    on the result removes nothing more. *)
Theorem handleDelete_outcomes {N S A : Type} (_id : N → string)
    (api_delete : string → S → axios A * S) id (prevNotes : list N) server :
  handleDelete _id false api_delete id prevNotes server
  = (prevNotes, None, server)
  ∧ (∀ code m server',
       api_delete ("/notes/" +:+ id) server = (Rejected code m, server') →
       handleDelete _id true api_delete id prevNotes server
       = (prevNotes, Some (ToastError (Some "Failed to delete note")), server'))
  ∧ (∀ data server',
       api_delete ("/notes/" +:+ id) server = (Resolved data, server') →
       ∃ after,
         handleDelete _id true api_delete id prevNotes server
         = (after, Some (ToastSuccess (Some "Note deleted successfully")),
            server')
         ∧ (∀ note, note ∈ after ↔ note ∈ prevNotes ∧ _id note ≠ id)
         ∧ after `sublist_of` prevNotes
         ∧ filter (λ note, _id note ≠ id) after = after).
Proof.
  unfold handleDelete. cbn [negb]. split_and!.
  - done.
  - by intros code m server' ->.
  - intros data server' ->. eexists. split; [done|]. split_and!.
    + intros note. rewrite list_elem_of_filter. tauto.
    + apply sublist_filter.
    + apply list_filter_filter_l. done.
Qed.

(** ** The home page *)

(** X23.  However the fetch ends, the home page is done loading.  After a
    fetch that resolved it shows the grid of the notes received, or the
    empty state when there are none; after a 429 it shows the rate-limit
    panel alone, the notes it had being kept but hidden; after any other
    failure the notes and the rate-limit flag are as before and "Failed to
    load notes" is shown.  Before the first fetch ends the page shows the
    loading text and the empty state together. *)
Theorem fetchNotes_outcomes {N : Type} (get : axios (list N))
    (st : @HomePage.state N) :
  HomePage.loading (HomePage.fetchNotes get st).1 = false
  ∧ (∀ data, get = Resolved data →
       HomePage.render (HomePage.fetchNotes get st).1
       = match data with
         | [] => [HomePage.NotesNotFound]
         | _ => [HomePage.NotesGrid data]
         end)
  ∧ (∀ m, get = Rejected (Some 429) m →
       HomePage.render (HomePage.fetchNotes get st).1 = [HomePage.RateLimitedUI]
       ∧ HomePage.notes (HomePage.fetchNotes get st).1 = HomePage.notes st)
  ∧ (∀ code m, get = Rejected code m → code ≠ Some 429 →
       HomePage.fetchNotes get st
       = (HomePage.mkState (HomePage.isRateLimited st) (HomePage.notes st)
            false,
          Some (ToastError (Some "Failed to load notes"))))
  ∧ HomePage.render (@HomePage.initial N)
    = [HomePage.LoadingNotes; HomePage.NotesNotFound].
Proof.
  split_and!.
  - destruct get as [data|code m]; [done|]. unfold HomePage.fetchNotes.
    by destruct (bool_decide _).
  - intros data ->. by destruct data.
  - intros m ->. split; [|done]. unfold HomePage.render, HomePage.fetchNotes.
    cbn [fst HomePage.isRateLimited HomePage.loading HomePage.notes negb].
    by rewrite bool_decide_eq_true_2, !andb_false_r.
  - intros code m -> Hcode. unfold HomePage.fetchNotes.
    by rewrite bool_decide_eq_false_2.
  - done.
Qed.

(** * The further properties on sample requests *)

(** X1 on the sample store: a login without a password. *)
Lemma login_requires_both_fields_witness :
  login (sample.env 5000 0%N) (sample.str "alice") None sample.db
  = (bad_request "Username and password are required", sample.db).
Proof.
  apply (login_requires_both_fields (B := bcrypt_reference.impl)
           (Q := mongoose_reference.impl) (sample.env 5000 0%N)
           (sample.str "alice") None sample.db).
  reflexivity.
Defined.

(** X5 on the sample store: Bob's requests and Alice's first note. *)
Lemma other_owners_notes_untouched_witness :
  notes (deleteNote sample.bob (toHexString sample.first_id) sample.db).2
    !! sample.first_id = Some sample.first.
Proof.
  refine (proj2 (proj2 (other_owners_notes_untouched
                          (Q := mongoose_reference.impl)
                          (sample.env 9000 18%N)
                          sample.bob (toHexString sample.first_id)
                          (sample.str "mine") None sample.db
                          sample.first_id sample.first _ _))).
  - vm_compute. reflexivity.
  - vm_compute. discriminate.
Defined.

(** X6 on the sample store: Alice's first note before and after her update. *)
Lemma owner_and_createdAt_never_change_witness :
  noteSchema.user (noteSchema.mk (Some "uno") (Some "one") sample.alice
                     2000 9000)
  = noteSchema.user sample.first
  ∧ noteSchema.createdAt (noteSchema.mk (Some "uno") (Some "one")
                            sample.alice 2000 9000)
    = noteSchema.createdAt sample.first.
Proof.
  refine (owner_and_createdAt_never_change (Q := mongoose_reference.impl)
            (sample.env 9000 0%N) sample.alice
            (toHexString sample.first_id) (sample.str "uno") None sample.db
            (updateNote (sample.env 9000 0%N) sample.alice
               (toHexString sample.first_id) (sample.str "uno") None
               sample.db)
            sample.first_id sample.first _ _ _ _).
  - right. left. reflexivity.
  - vm_compute. reflexivity.
  - vm_compute. reflexivity.
Defined.

(** X8 on the sample store: a note without a title. *)
Lemma createNote_rejects_missing_fields_witness :
  (createNote (sample.env 4000 18%N) sample.alice None (sample.str "three")
     sample.db).1
  = server_error "Internal server error".
Proof.
  refine (proj1 (createNote_rejects_missing_fields
                   (Q := mongoose_reference.impl) (sample.env 4000 18%N)
                   sample.alice None (sample.str "three") sample.db None
                   _ _)).
  - left. reflexivity.
  - left. reflexivity.
Defined.

(** X9 on the sample store: Alice updates her first note and reads it. *)
Lemma updateNote_then_getNoteById_witness :
  (getNoteById sample.alice (toHexString sample.first_id)
     (updateNote (sample.env 9000 0%N) sample.alice
        (toHexString sample.first_id) (sample.str "uno") None sample.db).2).1
  = (updateNote (sample.env 9000 0%N) sample.alice
       (toHexString sample.first_id) (sample.str "uno") None sample.db).1.
Proof.
  apply (updateNote_then_getNoteById (Q := mongoose_reference.impl)
           (sample.env 9000 0%N) sample.alice
           (toHexString sample.first_id) (sample.str "uno") None sample.db).
  vm_compute. reflexivity.
Defined.

(** X10 on the sample store: Bob's list after Alice creates a note. *)
Lemma createNote_then_getAllNotes_witness :
  (getAllNotes sample.bob
     (createNote (sample.env 4000 18%N) sample.alice (sample.str "third")
        (sample.str "three") sample.db).2).1
  = (getAllNotes sample.bob sample.db).1.
Proof.
  destruct (createNote_then_getAllNotes (Q := mongoose_reference.impl)
              (sample.env 4000 18%N) sample.alice
              (sample.str "third") (sample.str "three") sample.db)
    as (l & _ & _ & Hothers).
  - vm_compute. reflexivity.
  - apply Hothers. discriminate.
Defined.

(** X11 on the sample store: Bob's list after Alice deletes a note. *)
Lemma deleteNote_then_getAllNotes_witness :
  (getAllNotes sample.bob
     (deleteNote sample.alice (toHexString sample.first_id) sample.db).2).1
  = (getAllNotes sample.bob sample.db).1.
Proof.
  destruct (deleteNote_then_getAllNotes sample.alice
              (toHexString sample.first_id) sample.db)
    as (l & _ & _ & Hothers).
  - vm_compute. reflexivity.
  - apply Hothers. discriminate.
Defined.

(** X12 on the sample store and on the store in which Bob, too, is
    registered and owns a note: the two hold different users and different
    notes, but the same notes of Alice, and answer her alike. *)
Lemma answers_depend_on_own_notes_witness :
  users sample.db_with_bob !! sample.bob ≠ users sample.db !! sample.bob
  ∧ notes sample.db_with_bob !! sample.third_id
    ≠ notes sample.db !! sample.third_id
  ∧ (getNoteById sample.alice (toHexString sample.first_id) sample.db).1
    = (getNoteById sample.alice (toHexString sample.first_id)
         sample.db_with_bob).1
  ∧ (deleteNote sample.alice (toHexString sample.first_id) sample.db).1
    = (deleteNote sample.alice (toHexString sample.first_id)
         sample.db_with_bob).1.
Proof.
  destruct (answers_depend_on_own_notes (Q := mongoose_reference.impl)
              (sample.env 9000 0%N) sample.alice
              (toHexString sample.first_id) None None
              sample.db sample.db_with_bob)
    as (_ & Hget & _ & Hdelete & _).
  - vm_compute. reflexivity.
  - split_and!; [vm_compute; discriminate | vm_compute; discriminate
                 | exact Hget | exact Hdelete].
Defined.

(** X13 on the history that leads to the sample store. *)
Lemma served_users_wf_witness :
  users_wf
    (serve [Register (sample.env 1000 sample.alice) (sample.str "alice")
              (sample.str "wonderland");
            CreateNote (sample.env 2000 sample.first_id) sample.alice
              (sample.str "first") (sample.str "one")]
       (mkWorld ∅ ∅ [])).
Proof.
  apply (served_users_wf (B := bcrypt_reference.impl)
           (Q := mongoose_reference.impl)).
Defined.

(** X14 on the sample store: Alice deletes her first note twice. *)
Lemma deleted_note_is_gone_witness :
  (deleteNote sample.alice (toHexString sample.first_id)
     (deleteNote sample.alice (toHexString sample.first_id) sample.db).2).1
  = not_found "Note not found".
Proof.
  refine (proj1 (proj2 (proj2 (proj2
    (deleted_note_is_gone (Q := mongoose_reference.impl)
       (sample.env 9000 0%N) sample.alice (toHexString sample.first_id)
       None None sample.db _))))).
  vm_compute. reflexivity.
Defined.

(** X15 on the empty store: Alice registers, creates a note, and logs in. *)
Lemma registered_user_can_always_log_in_witness :
  ∃ tok,
    (login (sample.env 5000 0%N) (sample.str "alice") (sample.str "wonderland")
       (serve [CreateNote (sample.env 2000 sample.first_id) sample.alice
                 (sample.str "first") (sample.str "one")]
          (register (sample.env 1000 sample.alice) (sample.str "alice")
             (sample.str "wonderland") sample.empty).2)).1
    = {| status := 200;
         body := Session tok {| su_id := sample.alice;
                                su_username := JsString.trim "alice" |} |}
    ∧ jwt.id (jwt.claims tok) = sample.alice
    ∧ jwt.username (jwt.claims tok) = JsString.trim "alice".
Proof.
  apply (registered_user_can_always_log_in (B := bcrypt_reference.impl)
           (Q := mongoose_reference.impl)
           (sample.env 1000 sample.alice) (sample.env 5000 0%N)
           "alice" "wonderland"
           [CreateNote (sample.env 2000 sample.first_id) sample.alice
              (sample.str "first") (sample.str "one")]
           sample.empty).
  - intros i d. vm_compute. discriminate.
  - vm_compute. reflexivity.
Defined.

(** X16 on the sample store: Bob's requests and Alice's list. *)
Lemma others_requests_keep_own_notes_witness :
  (getAllNotes sample.alice
     (serve [DeleteNote sample.bob (toHexString sample.first_id);
             CreateNote (sample.env 4000 18%N) sample.bob (sample.str "b")
               (sample.str "b")]
        sample.db)).1
  = (getAllNotes sample.alice sample.db).1.
Proof.
  refine (proj2 (others_requests_keep_own_notes (B := bcrypt_reference.impl)
                   (Q := mongoose_reference.impl) sample.alice
                   [DeleteNote sample.bob (toHexString sample.first_id);
                    CreateNote (sample.env 4000 18%N) sample.bob
                      (sample.str "b") (sample.str "b")]
                   sample.db _)).
  repeat constructor; discriminate.
Defined.

Section browser_samples.

Example logout_keeps_other_entries :
  AuthContext.localStorage (AuthContext.logout alice_browser)
  = {["theme" := "forest"]}.
Proof. by vm_compute. Qed.

Example reload_restores_alice :
  AuthContext.user (V := string)
    (load_page (AuthContext.localStorage alice_browser)) = Some "alice".
Proof. by vm_compute. Qed.
End browser_samples.

(** X17 on the sample browser: a rejected login keeps Alice logged in. *)
Lemma failed_login_changes_nothing_witness :
  (AuthContext.login rejecting "bob" "secret1" alice_browser).2 = alice_browser
  ∧ (AuthContext.login rejecting "bob" "secret1" alice_browser).1
    = {| AuthContext.success := false;
         AuthContext.message := Some "Login failed" |}.
Proof.
  destruct (failed_login_changes_nothing rejecting "bob" "secret1"
              alice_browser (Some 400) None) as (Hstate & Hresult & _).
  - reflexivity.
  - split; [exact Hstate | exact Hresult].
Defined.

(** X18 on the sample browser: Bob logs in and reloads the page. *)
Lemma session_survives_reload_witness :
  AuthContext.user (V := string)
    (load_page
       (AuthContext.localStorage
          (AuthContext.login accepting "bob" "secret1" alice_browser).2))
  = Some "bob".
Proof.
  destruct (session_survives_reload accepting "bob" "secret1" alice_browser
              (AuthContext.mkSession "xyz" "bob")) as (_ & Hreload & _).
  - reflexivity.
  - refine (proj1 (Hreload _)). discriminate.
Defined.

(** X21 on the sample store: registering the taken name "alice". *)
Lemma register_page_shows_the_answer_witness :
  Register_handleSubmit
    (AuthContext.register
       (λ _ _, deliver (register (sample.env 1000 sample.bob)
                          (sample.str "alice") (sample.str "secret1")
                          sample.db).1)
       "alice" "secret1" alice_browser).1
  = {| shown := ToastError (Some "Username already exists");
       went_to := None |}.
Proof.
  refine (proj2 (proj2 (proj2
    (register_page_shows_the_answer (B := bcrypt_reference.impl)
       (Q := mongoose_reference.impl)
       (sample.env 1000 sample.bob) "alice" "secret1" sample.db
       (λ _ _, deliver (register (sample.env 1000 sample.bob)
                          (sample.str "alice") (sample.str "secret1")
                          sample.db).1)
       alice_browser _))) _ _ _).
  - reflexivity.
  - vm_compute. by eexists.
  - discriminate.
  - discriminate.
Defined.
